(** * Query pipeline of the RAG backend: shallow embedding and properties

    The development follows the Python sources of the query path:

    - [src/models/*.py]                     the records;
    - [src/services/validation_service.py]  request validation, refusal gate;
    - [src/services/retrieval_service.py]   mode-dependent retrieval;
    - [src/services/gemini_service.py]      interpretation of the model output;
    - [src/services/generation_service.py]  answer generation dispatch;
    - [src/services/citation_service.py]    citation construction and validation;
    - [src/utils/response_formatter.py]     response envelopes;
    - [src/api/routes/query.py]             the orchestrating endpoint.

    Conventions of the embedding.

    - A Python [str] is a [string]; the character classes are Python's for
      code points below 128 (ASCII text), other characters are uncased and
      are neither whitespace nor digits.
    - A Python [float] is a rational [Q]; the pipeline only creates the
      literals 0.0, 0.75, 0.85 and 1.0 and compares with [<=].
    - [Optional[str]] is [option string]; a dictionary with a fixed set of
      keys is a record, an absent key is [None].
    - The three providers (embedding, vector search, text generation) are
      oracles of a [World]; a call either returns or raises.  Each call is
      logged in a trace, so that "no external call was made" is a statement
      about the trace.
    - Console output ([print]) and time stamps are not modelled. *)

From Stdlib Require Import String Ascii List Bool Arith ZArith QArith Lia.
From Stdlib Require Import Decimal DecimalString DecimalNat FinFun.
Import ListNotations.

Local Open Scope list_scope.
Local Open Scope string_scope.

(** ** Python string primitives used by the services *)

Module PyStr.

Definition code (c : ascii) : nat := nat_of_ascii c.

Definition between (lo hi n : nat) : bool := (lo <=? n)%nat && (n <=? hi)%nat.

(** [str.isspace] on one character: TAB..CR, FS..US and the space. *)
Definition is_space (c : ascii) : bool :=
  between 9 13 (code c) || between 28 32 (code c).

Definition is_digit (c : ascii) : bool := between 48 57 (code c).
Definition is_upper (c : ascii) : bool := between 65 90 (code c).
Definition is_lower (c : ascii) : bool := between 97 122 (code c).
Definition is_cased (c : ascii) : bool := is_upper c || is_lower c.

Definition lower_char (c : ascii) : ascii :=
  if is_upper c then ascii_of_nat (code c + 32) else c.
Definition upper_char (c : ascii) : ascii :=
  if is_lower c then ascii_of_nat (code c - 32) else c.

(** [s.lower()] *)
Fixpoint lower (s : string) : string :=
  match s with
  | EmptyString => EmptyString
  | String c s' => String (lower_char c) (lower s')
  end.

(** [not s] for a [str] *)
Definition is_empty (s : string) : bool :=
  match s with EmptyString => true | String _ _ => false end.

(** [not s] for an [Optional[str]]: [None] and the empty string are falsy. *)
Definition falsy (o : option string) : bool :=
  match o with None => true | Some s => is_empty s end.

Definition truthy (o : option string) : bool := negb (falsy o).

Fixpoint lstrip (s : string) : string :=
  match s with
  | EmptyString => EmptyString
  | String c s' => if is_space c then lstrip s' else s
  end.

Fixpoint rstrip (s : string) : string :=
  match s with
  | EmptyString => EmptyString
  | String c s' =>
      match rstrip s' with
      | EmptyString => if is_space c then EmptyString else String c EmptyString
      | r => String c r
      end
  end.

(** [s.strip()] *)
Definition strip (s : string) : string := rstrip (lstrip s).

(** [s.startswith(p)] *)
Fixpoint startswith (p s : string) : bool :=
  match p, s with
  | EmptyString, _ => true
  | String _ _, EmptyString => false
  | String a p', String b s' => Ascii.eqb a b && startswith p' s'
  end.

(** [p in s] *)
Fixpoint contains (p s : string) : bool :=
  startswith p s ||
  match s with
  | EmptyString => false
  | String _ s' => contains p s'
  end.

(** [s[:n]] *)
Fixpoint take (n : nat) (s : string) : string :=
  match n, s with
  | S n', String c s' => String c (take n' s')
  | _, _ => EmptyString
  end.

(** [s.split(sep)] for a one-character separator *)
Fixpoint split (sep : ascii) (s : string) : list string :=
  match s with
  | EmptyString => [EmptyString]
  | String c s' =>
      if Ascii.eqb c sep then EmptyString :: split sep s'
      else match split sep s' with
           | h :: t => String c h :: t
           | [] => [String c EmptyString]
           end
  end.

(** [s.replace(a, b)] for one-character [a] and [b] *)
Fixpoint replace (a b : ascii) (s : string) : string :=
  match s with
  | EmptyString => EmptyString
  | String c s' => String (if Ascii.eqb c a then b else c) (replace a b s')
  end.

(** [s.title()]: a cased character is upper-cased when it follows an
    uncased one (or starts the string) and lower-cased otherwise. *)
Fixpoint title_from (prev_cased : bool) (s : string) : string :=
  match s with
  | EmptyString => EmptyString
  | String c s' =>
      if is_cased c
      then String (if prev_cased then lower_char c else upper_char c)
                  (title_from true s')
      else String c (title_from false s')
  end.

Definition title (s : string) : string := title_from false s.

(** [sep.join(parts)] *)
Fixpoint join (sep : string) (parts : list string) : string :=
  match parts with
  | [] => EmptyString
  | [p] => p
  | p :: rest => p ++ sep ++ join sep rest
  end.

(** [str(n)] for a non-negative [int] *)
Definition of_nat (n : nat) : string := NilEmpty.string_of_uint (Nat.to_uint n).

(** *** The two regular expressions of the citation service

    Both have the shape [(?:long|short)\s*(group)] and are used with
    [re.search]: the leftmost position wins, at one position the first
    alternative is tried first, [\s*] and [\d+] are greedy.  Whitespace
    and digits are disjoint, so giving back whitespace never helps. *)

Fixpoint drop_prefix (p s : string) : option string :=
  match p, s with
  | EmptyString, _ => Some s
  | String _ _, EmptyString => None
  | String a p', String b s' =>
      if Ascii.eqb a b then drop_prefix p' s' else None
  end.

(** the longest run of digits at the head, and the rest *)
Fixpoint span_digits (s : string) : string * string :=
  match s with
  | EmptyString => (EmptyString, EmptyString)
  | String c s' =>
      if is_digit c
      then let (d, r) := span_digits s' in (String c d, r)
      else (EmptyString, s)
  end.

(** [(\d+)] at the head of [s]: group 1 *)
Definition group_digits (s : string) : option string :=
  let (d, _) := span_digits s in
  if is_empty d then None else Some d.

(** [(\d+(?:\.\d+)?)] at the head of [s]: group 1 *)
Definition group_dotted (s : string) : option string :=
  let (d, r) := span_digits s in
  if is_empty d then None
  else match r with
       | String "."%char r' =>
           let (d2, _) := span_digits r' in
           if is_empty d2 then Some d else Some (d ++ "." ++ d2)
       | _ => Some d
       end.

(** [kw\s*(group)] at the head of [s] *)
Definition keyword_then (kw : string) (group : string -> option string)
           (s : string) : option string :=
  match drop_prefix kw s with
  | Some r => group (lstrip r)
  | None => None
  end.

Definition first_of {A} (a b : option A) : option A :=
  match a with Some _ => a | None => b end.

(** [re.search]: try the matcher at every position, left to right;
    the result is group 1 of the match. *)
Fixpoint re_search (m : string -> option string) (s : string) : option string :=
  match m s with
  | Some g => Some g
  | None =>
      match s with
      | EmptyString => None
      | String _ s' => re_search m s'
      end
  end.

(** [r'(?:chapter|ch)\s*(\d+)'] *)
Definition re_chapter (s : string) : option string :=
  re_search (fun t => first_of (keyword_then "chapter" group_digits t)
                               (keyword_then "ch" group_digits t)) s.

(** [r'(?:section|sec)\s*(\d+(?:\.\d+)?)'] *)
Definition re_section (s : string) : option string :=
  re_search (fun t => first_of (keyword_then "section" group_dotted t)
                               (keyword_then "sec" group_dotted t)) s.

End PyStr.

(** ** Data model ([src/models]) *)

(** [QueryRequest]: the fields the pipeline reads. *)
Module QueryRequest.
Record t : Type := mk {
  id : string;
  question : string;
  query_mode : string;
  selected_text : option string
}.
End QueryRequest.

(** [DocumentChunk]; [embedding_vector] is [None] on every chunk the
    retriever builds. *)
Module DocumentChunk.
Record t : Type := mk {
  id : string;
  document_id : string;
  content : string;
  chunk_index : Z
}.
End DocumentChunk.

Module Citation.
Record t : Type := mk {
  id : string;
  response_id : string;
  document_id : string;
  chapter : string;
  section : string;
  file_path : string;
  relevance_score : Q;
  text_snippet : string
}.
End Citation.

(** The dictionary a generation service returns.  The keys [reason_code]
    and [explanation] are absent from a success dictionary. *)
Module GenerationResult.
Record t : Type := mk {
  answer : option string;
  status : string;
  confidence_score : option Q;
  reason_code : option string;
  explanation : option string
}.
End GenerationResult.

(** The dictionary the endpoint returns: the keys of [QueryResponse], and
    [reason_code] and [explanation] on a refusal. *)
Module Response.
Record t : Type := mk {
  id : string;
  query_id : string;
  answer : option string;
  reason_code : option string;
  explanation : option string;
  citations : list Citation.t;
  retrieved_chunks : list string;
  confidence_score : option Q;
  generation_time_ms : Q;
  status : string
}.
End Response.

(** A hit of the vector index: [str(result.id)] and the payload keys the
    retriever reads. *)
Module ScoredPoint.
Record t : Type := mk {
  id : string;
  payload_content : option string;
  payload_text : option string;
  payload_chunk_text : option string;
  payload_page_content : option string;
  payload_document_id : option string;
  payload_chunk_index : option Z
}.
End ScoredPoint.

(** ** Exceptions, providers and the call trace *)

Inductive PyExc : Type :=
| HTTPException (status_code : Z) (error : string) (details : list string)
| ValueError (msg : string)
| ProviderError (msg : string).

(** What a provider call does: return a value or raise with a message. *)
Inductive Outcome (A : Type) : Type :=
| Returns (a : A)
| Raises (msg : string).
Arguments Returns {A} a.
Arguments Raises {A} msg.

Record World : Type := mkWorld {
  (** [client.embed] for one text, first embedding of the answer *)
  embed : string -> Outcome (list Q);
  (** [client.query_points(query, limit).points] *)
  query_points : list Q -> nat -> Outcome (list ScoredPoint.t);
  (** [model.generate_content(prompt).text] *)
  generate_content : string -> Outcome string;
  (** milliseconds on the clock when the response is assembled *)
  elapsed_ms : Q;
  (** [str(e)] of the web framework's [HTTPException] *)
  http_exception_str : Z -> string -> list string -> string
}.

Inductive Call : Type :=
| CallEmbed (text : string)
| CallSearch (query : list Q) (limit : nat)
| CallGenerate (prompt : string).

(** A computation: the external calls it made, then an exception or a value. *)
Definition M (A : Type) : Type := (list Call * (PyExc + A))%type.

Definition ret {A} (a : A) : M A := ([], inr a).

Definition raise {A} (e : PyExc) : M A := ([], inl e).

Definition bind {A B} (m : M A) (k : A -> M B) : M B :=
  match m with
  | (t, inl e) => (t, inl e)
  | (t, inr a) => let (t', r) := k a in ((t ++ t')%list, r)
  end.

Notation "x <- m ;; k" := (bind m (fun x => k))
  (at level 61, m at next level, right associativity).

(** One provider call: logged, and a failure becomes an exception. *)
Definition call {A} (c : Call) (o : Outcome A) : M A :=
  match o with
  | Returns a => ([c], inr a)
  | Raises msg => ([c], inl (ProviderError msg))
  end.

(** [try: m  except Exception as e: h e] *)
Definition try_except {A} (m : M A) (h : PyExc -> M A) : M A :=
  match m with
  | (t, inl e) => let (t', r) := h e in ((t ++ t')%list, r)
  | (t, inr a) => (t, inr a)
  end.

(** [try: m  except ValueError as e: ...]: a [ValueError] is handed over
    as [inl e], any other exception propagates. *)
Definition try_ValueError {A} (m : M A) : M (PyExc + A) :=
  match m with
  | (t, inl (ValueError msg)) => (t, inr (inl (ValueError msg)))
  | (t, inl e) => (t, inl e)
  | (t, inr a) => (t, inr (inr a))
  end.

Definition trace {A} (m : M A) : list Call := fst m.
Definition result {A} (m : M A) : PyExc + A := snd m.

(** [str(e)] *)
Definition str_exc (w : World) (e : PyExc) : string :=
  match e with
  | HTTPException c err ds => http_exception_str w c err ds
  | ValueError msg => msg
  | ProviderError msg => msg
  end.

(** ** [ValidationService] ([src/services/validation_service.py]) *)

Definition str_in (s : string) (l : list string) : bool :=
  existsb (String.eqb s) l.

Definition question_too_short (question : string) : bool :=
  PyStr.is_empty question || (String.length (PyStr.strip question) <? 3)%nat.

Definition selected_text_missing (selected_text : option string) : bool :=
  match selected_text with
  | None => true
  | Some s => PyStr.is_empty s || (String.length (PyStr.strip s) =? 0)%nat
  end.

Definition err_question : string :=
  "Question must be at least 3 characters long".
Definition err_mode : string :=
  "Query mode must be either 'book-wide' or 'selected-text'".
Definition err_selected : string :=
  "Selected text must be provided when query mode is 'selected-text'".

(** The three [if ...: errors.append(...)] statements, in order. *)
Definition validate_query_request (q : QueryRequest.t) : list string :=
  let errors := [] in
  let errors :=
    if question_too_short (QueryRequest.question q)
    then (errors ++ [err_question])%list else errors in
  let errors :=
    if negb (str_in (QueryRequest.query_mode q) ["book-wide"; "selected-text"])
    then (errors ++ [err_mode])%list else errors in
  let errors :=
    if (QueryRequest.query_mode q =? "selected-text")
    then if selected_text_missing (QueryRequest.selected_text q)
         then (errors ++ [err_selected])%list else errors
    else errors in
  errors.

Definition validate_retrieved_context
  (retrieved_chunks : list DocumentChunk.t) (q : QueryRequest.t) : bool :=
  match retrieved_chunks with
  | [] => false
  | _ => (0 <? List.length retrieved_chunks)%nat
  end.

(** Past its first test every exit of [validate_answer_grounding] returns
    [True]: the word-overlap loop and the fall-through agree. *)
Definition validate_answer_grounding
  (answer : string) (retrieved_chunks : list DocumentChunk.t) : bool :=
  if PyStr.is_empty answer || (List.length retrieved_chunks =? 0)%nat
  then false else true.

Definition _can_generate_citations (retrieved_chunks : list DocumentChunk.t) : bool :=
  forallb (fun chunk => negb (PyStr.is_empty (DocumentChunk.document_id chunk)))
          retrieved_chunks.

(** The refusal dictionary of [check_refusal_conditions]:
    [(reason_code, explanation)]. *)
Definition Refusal : Type := (string * string)%type.

Definition check_refusal_conditions
  (q : QueryRequest.t) (retrieved_chunks : list DocumentChunk.t)
  (answer : option string) : option Refusal :=
  if negb (validate_retrieved_context retrieved_chunks q) then
    Some ("NO_RELEVANT_CONTEXT",
          "No relevant context found in the textbook to answer the question.")
  else if match answer with
          | Some a => negb (PyStr.is_empty a)
                      && negb (validate_answer_grounding a retrieved_chunks)
          | None => false
          end then
    Some ("NO_RELEVANT_CONTEXT",
          "The answer could not be properly grounded in the provided textbook context.")
  else if negb (match retrieved_chunks with [] => true | _ => false end)
          && negb (_can_generate_citations retrieved_chunks) then
    Some ("CITATION_FAILURE",
          "Citations cannot be generated for the provided context.")
  else None.

(** ** [EmbeddingService] ([src/services/embedding_service.py]) *)

Definition create_single_embedding (w : World) (text : string) : M (list Q) :=
  if PyStr.is_empty text then ret []
  else call (CallEmbed text) (embed w text).

(** ** [RetrievalService] ([src/services/retrieval_service.py]) *)

(** [a or b] on optional strings *)
Definition or_str (a : option string) (b : option string) : option string :=
  if PyStr.truthy a then a else b.

Definition payload_text_of (p : ScoredPoint.t) : string :=
  match or_str (ScoredPoint.payload_content p)
         (or_str (ScoredPoint.payload_text p)
           (or_str (ScoredPoint.payload_chunk_text p)
             (or_str (ScoredPoint.payload_page_content p) (Some EmptyString))))
  with
  | Some s => s
  | None => EmptyString
  end.

Definition get_default {A} (o : option A) (d : A) : A :=
  match o with Some a => a | None => d end.

Fixpoint chunks_of_points (points : list ScoredPoint.t) : list DocumentChunk.t :=
  match points with
  | [] => []
  | p :: rest =>
      let content := payload_text_of p in
      if PyStr.is_empty content then chunks_of_points rest
      else DocumentChunk.mk (ScoredPoint.id p)
             (get_default (ScoredPoint.payload_document_id p) EmptyString)
             content
             (get_default (ScoredPoint.payload_chunk_index p) 0%Z)
           :: chunks_of_points rest
  end.

Definition _retrieve_book_wide (w : World) (query_embedding : list Q) (top_k : nat)
  : M (list DocumentChunk.t) :=
  points <- call (CallSearch query_embedding top_k)
                 (query_points w query_embedding top_k) ;;
  ret (chunks_of_points points).

Definition _retrieve_from_selected_text (selected_text : string) (top_k : nat)
  : M (list DocumentChunk.t) :=
  ret [DocumentChunk.mk "temp_selected_text" "selected_text_session"
         selected_text 0%Z].

Definition retrieve_for_query (w : World) (query_embedding : list Q)
  (query_mode : string) (selected_text : option string) (top_k : nat)
  : M (list DocumentChunk.t) :=
  if (query_mode =? "selected-text") && PyStr.truthy selected_text
  then _retrieve_from_selected_text (get_default selected_text EmptyString) top_k
  else _retrieve_book_wide w query_embedding top_k.

(** ** The Gemini services ([src/services/gemini_service.py]) *)

Inductive LLMService : Type :=
| GeminiLLMService
| SelectedTextGeminiLLMService.

Definition nl : string := String (ascii_of_nat 10) EmptyString.
Definition indent : string := "        ".

Definition rag_prompt (svc : LLMService) (question context : string) : string :=
  match svc with
  | GeminiLLMService =>
      nl ++ indent ++ "Based on the following context, answer the question. If the context does not contain enough information to answer the question, respond with a refusal message." ++ nl
      ++ nl
      ++ indent ++ "Context: " ++ context ++ nl
      ++ nl
      ++ indent ++ "Question: " ++ question ++ nl
      ++ nl
      ++ indent ++ "Answer:" ++ nl
      ++ indent
  | SelectedTextGeminiLLMService =>
      nl ++ indent ++ "You are a helpful assistant that answers questions only based on the provided selected text." ++ nl
      ++ indent ++ "Do not use any external knowledge or information beyond what is provided in the selected text." ++ nl
      ++ indent ++ nl
      ++ indent ++ "Selected text: " ++ context ++ nl
      ++ indent ++ nl
      ++ indent ++ "Question: " ++ question ++ nl
      ++ indent ++ nl
      ++ indent ++ "Answer (based ONLY on the selected text): " ++ nl
      ++ indent
  end.

(** The refusal-indicating phrases of each service. *)
Definition refusal_phrases (svc : LLMService) : list string :=
  match svc with
  | GeminiLLMService =>
      ["cannot answer"; "no relevant"; "not mentioned"; "not found in context"]
  | SelectedTextGeminiLLMService =>
      ["cannot answer"; "no relevant"; "not mentioned";
       "not found in selected text"; "not provided in selected text";
       "outside the provided text"]
  end.

Definition refusal_explanation (svc : LLMService) : string :=
  match svc with
  | GeminiLLMService =>
      "No relevant context found in the provided information."
  | SelectedTextGeminiLLMService =>
      "No relevant information found in the selected text to answer the question."
  end.

(** [any(phrase.lower() in response_text.lower() for phrase in [...])] *)
Definition indicates_refusal (svc : LLMService) (response_text : string) : bool :=
  existsb (fun phrase => PyStr.contains (PyStr.lower phrase) (PyStr.lower response_text))
          (refusal_phrases svc).

Definition insufficient (explanation : string) : GenerationResult.t :=
  GenerationResult.mk None "insufficient_context" None
    (Some "NO_RELEVANT_CONTEXT") (Some explanation).

(** What [sync_generate] does with [response.text]. *)
Definition interpret_text (svc : LLMService) (text : string) : GenerationResult.t :=
  if negb (PyStr.is_empty text) then
    let response_text := PyStr.strip text in
    if indicates_refusal svc response_text
    then insufficient (refusal_explanation svc)
    else GenerationResult.mk (Some response_text) "success" (Some (17 # 20)) None None
  else insufficient "No response was generated from the model.".

Definition generation_error (w : World) (e : PyExc) : GenerationResult.t :=
  GenerationResult.mk None "error" None (Some "ERROR")
    (Some ("Error generating response: " ++ str_exc w e)).

Definition generate_rag_response (w : World) (svc : LLMService)
  (question context : string) : M GenerationResult.t :=
  let prompt := rag_prompt svc question context in
  try_except
    (text <- call (CallGenerate prompt) (generate_content w prompt) ;;
     ret (interpret_text svc text))
    (fun e => ret (generation_error w e)).

(** ** [GenerationService] ([src/services/generation_service.py]) *)

Definition _create_refusal_response (reason_code explanation : string)
  : GenerationResult.t :=
  GenerationResult.mk None "insufficient_context" None
    (Some reason_code) (Some explanation).

Definition _build_context (retrieved_chunks : list DocumentChunk.t) : string :=
  PyStr.join (nl ++ nl)
    (map (fun chunk =>
            "Source: " ++ DocumentChunk.document_id chunk ++ " | Content: "
            ++ PyStr.take 500 (DocumentChunk.content chunk) ++ "...")
         retrieved_chunks).

Definition generate_answer (w : World) (q : QueryRequest.t)
  (retrieved_chunks : list DocumentChunk.t) : M GenerationResult.t :=
  match retrieved_chunks with
  | [] =>
      ret (_create_refusal_response "NO_RELEVANT_CONTEXT"
             "No relevant context found to answer the question from the textbook.")
  | _ =>
      let context := _build_context retrieved_chunks in
      if (QueryRequest.query_mode q =? "selected-text")
         && PyStr.truthy (QueryRequest.selected_text q)
      then generate_rag_response w SelectedTextGeminiLLMService
             (QueryRequest.question q)
             (get_default (QueryRequest.selected_text q) EmptyString)
      else generate_rag_response w GeminiLLMService
             (QueryRequest.question q) context
  end.

Definition validate_generation_ability (q : QueryRequest.t) : M bool :=
  if PyStr.is_empty (QueryRequest.question q)
     || (String.length (PyStr.strip (QueryRequest.question q)) <? 3)%nat
  then ret false
  else ret true.

(** ** [CitationService] ([src/services/citation_service.py]) *)

Definition underscore : ascii := "_"%char.
Definition hyphen : ascii := "-"%char.
Definition blank : ascii := " "%char.

Definition _extract_chapter_from_path (document_id : string) : string :=
  match PyStr.re_chapter (PyStr.lower document_id) with
  | Some g => "Chapter " ++ g
  | None =>
      let parts := PyStr.split underscore document_id in
      if (1 <? List.length parts)%nat
      then PyStr.title (PyStr.replace hyphen blank (hd EmptyString parts))
      else "Unknown Chapter"
  end.

Definition _extract_section_from_path (document_id : string) : string :=
  match PyStr.re_section (PyStr.lower document_id) with
  | Some g => "Section " ++ g
  | None =>
      let parts := PyStr.split underscore document_id in
      let fallback := "General" in
      if (1 <? List.length parts)%nat
      then match find (fun part =>
                         PyStr.contains "section" (PyStr.lower part)
                         || PyStr.contains "topic" (PyStr.lower part)
                         || (0 <? String.length part)%nat)
                      (tl parts) with
           | Some part => PyStr.title (PyStr.replace hyphen blank part)
           | None => fallback
           end
      else fallback
  end.

Definition _calculate_relevance_score (chunk : DocumentChunk.t) : Q := 3 # 4.

(** [chunk.content[:200] + "..." if len(chunk.content) > 200 else chunk.content] *)
Definition snippet_of (content : string) : string :=
  if (200 <? String.length content)%nat
  then PyStr.take 200 content ++ "..."
  else content.

Definition citation_of (response_id : string) (i : nat) (chunk : DocumentChunk.t)
  : Citation.t :=
  Citation.mk
    ("cit_" ++ response_id ++ "_" ++ PyStr.of_nat i)
    response_id
    (DocumentChunk.document_id chunk)
    (_extract_chapter_from_path (DocumentChunk.document_id chunk))
    (_extract_section_from_path (DocumentChunk.document_id chunk))
    (DocumentChunk.document_id chunk)
    (_calculate_relevance_score chunk)
    (snippet_of (DocumentChunk.content chunk)).

(** [for i, chunk in enumerate(retrieved_chunks)], counting from [i]. *)
Fixpoint format_citations_from (i : nat) (retrieved_chunks : list DocumentChunk.t)
  (response_id : string) : list Citation.t :=
  match retrieved_chunks with
  | [] => []
  | chunk :: rest =>
      citation_of response_id i chunk :: format_citations_from (S i) rest response_id
  end.

Definition format_citations (retrieved_chunks : list DocumentChunk.t)
  (response_id : string) : list Citation.t :=
  format_citations_from 0 retrieved_chunks response_id.

Definition required_fields (citation : Citation.t) : list string :=
  [Citation.chapter citation; Citation.section citation;
   Citation.file_path citation; Citation.text_snippet citation].

Definition field_missing (field : string) : bool :=
  PyStr.is_empty field || PyStr.is_empty (PyStr.strip field).

Definition score_in_range (s : Q) : bool := Qle_bool 0 s && Qle_bool s 1.

Definition validate_citation_format (citation : Citation.t) : bool :=
  if existsb field_missing (required_fields citation) then false
  else if negb (score_in_range (Citation.relevance_score citation)) then false
  else true.

(** The validation loop: the first invalid citation raises. *)
Fixpoint check_citations (citations : list Citation.t) : M unit :=
  match citations with
  | [] => ret tt
  | citation :: rest =>
      if negb (validate_citation_format citation)
      then raise (ValueError ("Invalid citation format for document "
                              ++ Citation.document_id citation))
      else check_citations rest
  end.

Definition generate_citation_for_response
  (retrieved_chunks : list DocumentChunk.t) (response_id : string)
  : M (list Citation.t) :=
  let citations := format_citations retrieved_chunks response_id in
  _ <- check_citations citations ;;
  ret citations.

(** ** Response envelopes ([src/utils/response_formatter.py]) *)

Definition format_citations_list (citations : list Citation.t) : list Citation.t :=
  map (fun citation =>
         Citation.mk (Citation.id citation) (Citation.response_id citation)
           (Citation.document_id citation) (Citation.chapter citation)
           (Citation.section citation) (Citation.file_path citation)
           (Citation.relevance_score citation) (Citation.text_snippet citation))
      citations.

(** The [QueryResponse] object is passed as its fields. *)
Definition format_response_with_citations (response : Response.t) : Response.t :=
  Response.mk (Response.id response) (Response.query_id response)
    (Response.answer response) None None
    (format_citations_list (Response.citations response))
    (Response.retrieved_chunks response)
    (Response.confidence_score response)
    (Response.generation_time_ms response)
    (Response.status response).

Definition format_refusal_response (query_id reason_code explanation : string)
  : Response.t :=
  Response.mk ("ref_" ++ query_id) query_id None
    (Some reason_code) (Some explanation) [] [] None 0
    "insufficient_context".

(** ** The endpoint ([src/api/routes/query.py]) *)

Definition HTTP_400_BAD_REQUEST : Z := 400.

(** The body of the [try] block. *)
Definition query_endpoint_try (w : World) (query_request : QueryRequest.t)
  : M Response.t :=
  let qid := QueryRequest.id query_request in
  let validation_errors := validate_query_request query_request in
  match validation_errors with
  | _ :: _ =>
      raise (HTTPException HTTP_400_BAD_REQUEST "Invalid query parameters"
               validation_errors)
  | [] =>
  can_generate <- validate_generation_ability query_request ;;
  if negb can_generate then
    ret (format_refusal_response qid "NO_RELEVANT_CONTEXT"
           "The query does not contain enough information to generate an answer.")
  else
  query_embedding <-
    create_single_embedding w (QueryRequest.question query_request) ;;
  retrieved_chunks <-
    retrieve_for_query w query_embedding
      (QueryRequest.query_mode query_request)
      (QueryRequest.selected_text query_request) 5 ;;
  match check_refusal_conditions query_request retrieved_chunks None with
  | Some (reason_code, explanation) =>
      ret (format_refusal_response qid reason_code explanation)
  | None =>
  generation_result <- generate_answer w query_request retrieved_chunks ;;
  if GenerationResult.status generation_result =? "insufficient_context" then
    ret (format_refusal_response qid
           (get_default (GenerationResult.reason_code generation_result)
              "NO_RELEVANT_CONTEXT")
           (get_default (GenerationResult.explanation generation_result)
              "Could not generate an answer based on the provided context."))
  else
  cited <- try_ValueError
             (generate_citation_for_response retrieved_chunks qid) ;;
  match cited with
  | inl e =>
      ret (format_refusal_response qid "CITATION_FAILURE"
             ("Citations could not be generated: " ++ str_exc w e))
  | inr citations =>
      let response :=
        Response.mk ("resp_" ++ qid) qid
          (GenerationResult.answer generation_result) None None
          citations
          (map DocumentChunk.id retrieved_chunks)
          (GenerationResult.confidence_score generation_result)
          (elapsed_ms w)
          (GenerationResult.status generation_result) in
      ret (format_response_with_citations response)
  end
  end
  end.

(** [try: ... except Exception as e: return format_refusal_response(...)] *)
Definition query_endpoint (w : World) (query_request : QueryRequest.t)
  : M Response.t :=
  try_except (query_endpoint_try w query_request)
    (fun e =>
       ret (format_refusal_response (QueryRequest.id query_request) "ERROR"
              ("An error occurred while processing your request: "
               ++ str_exc w e))).

(** ** Further string primitives *)

Module PyText.

(** [s.split()]: the maximal runs of non-whitespace characters. *)
Fixpoint words (s : string) : list string :=
  match s with
  | EmptyString => []
  | String c s' =>
      if PyStr.is_space c then words s'
      else match s' with
           | EmptyString => [String c EmptyString]
           | String c' _ =>
               if PyStr.is_space c' then String c EmptyString :: words s'
               else match words s' with
                    | w :: ws => String c w :: ws
                    | [] => [String c EmptyString]
                    end
           end
  end.

(** [s[n:]] *)
Fixpoint drop (n : nat) (s : string) : string :=
  match n, s with
  | S n', String _ s' => drop n' s'
  | _, _ => s
  end.

(** [re.sub(r'\s+', ' ', s)]: every maximal run of whitespace becomes one
    blank; [in_run] tells that the previous character was whitespace. *)
Fixpoint collapse_from (in_run : bool) (s : string) : string :=
  match s with
  | EmptyString => EmptyString
  | String c s' =>
      if PyStr.is_space c
      then if in_run then collapse_from true s'
           else String " "%char (collapse_from true s')
      else String c (collapse_from false s')
  end.

Definition collapse (s : string) : string := collapse_from false s.

(** [s[a:b]] for integer bounds: a negative bound counts from the end, and
    both are clamped to the string. *)
Definition clamp (len x : Z) : Z :=
  if (x <? 0)%Z then Z.max (x + len) 0 else Z.min x len.

Definition slice (s : string) (a b : Z) : string :=
  let len := Z.of_nat (String.length s) in
  let a' := clamp len a in
  let b' := clamp len b in
  if (a' <? b')%Z then PyStr.take (Z.to_nat (b' - a')) (drop (Z.to_nat a') s)
  else EmptyString.

End PyText.

(** ** Further functions of the services *)

(** [ValidationService.validate_answer_grounding] with its loop over the
    context parts: [answer_lower.split()[:5]] are the first five words of
    the answer, a part longer than ten characters that contains one of them
    returns [True], and so does the fall-through. *)
Definition validate_answer_grounding_loop
  (answer : string) (retrieved_chunks : list DocumentChunk.t) : bool :=
  if PyStr.is_empty answer || (List.length retrieved_chunks =? 0)%nat then false
  else
    let answer_lower := PyStr.lower answer in
    let context_parts :=
      map (fun chunk => PyStr.lower (DocumentChunk.content chunk)) retrieved_chunks in
    if existsb (fun context =>
                  (10 <? String.length context)%nat
                  && existsb (fun word => PyStr.contains word context)
                             (firstn 5 (PyText.words answer_lower)))
               context_parts
    then true
    else true.

(** [ValidationService.validate_citation_generation] *)
Definition validate_citation_generation (citations : list Citation.t) : bool :=
  forallb (fun citation =>
             negb (PyStr.is_empty (Citation.chapter citation)
                   || PyStr.is_empty (Citation.section citation)
                   || PyStr.is_empty (Citation.file_path citation)))
          citations.

(** [RetrievalService.retrieve_by_document_id]: the loop over the points
    that [client.scroll] returned.  It reads the keys [content], [text] and
    [chunk_text] only. *)
Definition scrolled_text_of (p : ScoredPoint.t) : string :=
  match or_str (ScoredPoint.payload_content p)
         (or_str (ScoredPoint.payload_text p)
           (or_str (ScoredPoint.payload_chunk_text p) (Some EmptyString)))
  with
  | Some s => s
  | None => EmptyString
  end.

Fixpoint chunks_of_scroll (points : list ScoredPoint.t) : list DocumentChunk.t :=
  match points with
  | [] => []
  | p :: rest =>
      let content := scrolled_text_of p in
      if PyStr.is_empty content then chunks_of_scroll rest
      else DocumentChunk.mk (ScoredPoint.id p)
             (get_default (ScoredPoint.payload_document_id p) EmptyString)
             content
             (get_default (ScoredPoint.payload_chunk_index p) 0%Z)
           :: chunks_of_scroll rest
  end.

(** [scroll] stands for [client.scroll(filter on document_id, limit)[0]]. *)
Definition retrieve_by_document_id
  (scroll : string -> nat -> Outcome (list ScoredPoint.t))
  (document_id : string) (top_k : nat) : PyExc + list DocumentChunk.t :=
  match scroll document_id top_k with
  | Returns points => inr (chunks_of_scroll points)
  | Raises msg => inl (ProviderError msg)
  end.

(** [GeminiLLMService.generate_text] *)
Definition generate_text (w : World) (prompt : string) (context : option string)
  : M string :=
  let full_prompt :=
    if PyStr.truthy context
    then "Context: " ++ get_default context EmptyString ++ nl ++ nl
         ++ "Question: " ++ prompt
    else prompt in
  text <- call (CallGenerate full_prompt) (generate_content w full_prompt) ;;
  ret (if negb (PyStr.is_empty text) then text else "No response generated").

(** [test_generation] of the debug routes: generation over one fixed chunk;
    [format_exc] stands for [traceback.format_exc()]. *)
Inductive DebugReply : Type :=
| DebugSuccess (result : GenerationResult.t)
| DebugFailure (error traceback : string).

Definition mock_chunks : list DocumentChunk.t :=
  [DocumentChunk.mk "test_1" "test_doc"
     "Humanoid robotics is the field focused on designing and building robots with human-like appearance and behavior."
     0%Z].

Definition test_generation (w : World) (format_exc : PyExc -> string)
  (query_request : QueryRequest.t) : M DebugReply :=
  try_except
    (result <- generate_answer w query_request mock_chunks ;;
     ret (DebugSuccess result))
    (fun e => ret (DebugFailure (str_exc w e) (format_exc e))).

(** ** Text utilities ([src/utils/text_processor.py]) *)

(** [clean_text]: [re.sub(r'\s+', ' ', text).strip()] *)
Definition clean_text (text : string) : string :=
  PyStr.strip (PyText.collapse text).

(** [normalize_whitespace]: [' '.join(text.split())] *)
Definition normalize_whitespace (text : string) : string :=
  PyStr.join " " (PyText.words text).

(** The [while] loop of [chunk_text], entered with [start].  [None] means
    that [fuel] iterations did not reach the end of the loop. *)
Fixpoint chunk_text_loop (fuel : nat) (text : string)
  (chunk_size overlap start : Z) : option (list string) :=
  match fuel with
  | O => None
  | S fuel' =>
      let len := Z.of_nat (String.length text) in
      if (start <? len)%Z then
        let end_ := (start + chunk_size)%Z in
        let chunk := PyText.slice text start end_ in
        let start' := (end_ - overlap)%Z in
        if (len <=? start')%Z then Some [chunk]
        else option_map (cons chunk)
               (chunk_text_loop fuel' text chunk_size overlap start')
      else Some []
  end.

Definition chunk_text (fuel : nat) (text : string) (chunk_size overlap : Z)
  : option (list string) :=
  if (Z.of_nat (String.length text) <=? chunk_size)%Z then Some [text]
  else chunk_text_loop fuel text chunk_size overlap 0.

(** ** Ingestion ([scripts/ingest_content.py]) *)

Module Document.
Record t : Type := mk {
  id : string;
  title : string;
  content : string;
  chapter : string;
  section : string;
  file_path : string;
  source_url : string
}.
End Document.

(** [range(0, stop, step)] for a positive [step]; [stop] iterations are
    enough. *)
Fixpoint range_from (fuel i stop step : nat) : list nat :=
  match fuel with
  | O => []
  | S fuel' =>
      if (i <? stop)%nat then i :: range_from fuel' (i + step) stop step else []
  end.

(** [chunk_document]: [range] raises on a zero step and is empty on a
    negative one. *)
Definition chunk_document (document : Document.t) (chunk_size : Z)
  : PyExc + list DocumentChunk.t :=
  let content := Document.content document in
  if (chunk_size =? 0)%Z then inl (ValueError "range() arg 3 must not be zero")
  else if (chunk_size <? 0)%Z then inr []
  else
    let size := Z.to_nat chunk_size in
    inr (map (fun i =>
                DocumentChunk.mk
                  (Document.id document ++ "_chunk_" ++ PyStr.of_nat (i / size))
                  (Document.id document)
                  (PyStr.take size (PyText.drop i content))
                  (Z.of_nat (i / size)))
             (range_from (String.length content) 0 (String.length content) size)).

(** The payload content written by [store_chunk_embeddings]. *)
Definition stored_content (chunk : DocumentChunk.t) : string :=
  if (200 <? String.length (DocumentChunk.content chunk))%nat
  then PyStr.take 200 (DocumentChunk.content chunk) ++ "..."
  else DocumentChunk.content chunk.

(** ** Health check ([src/api/routes/health.py]) *)

Module Settings.
Record t : Type := mk {
  gemini_api_key : option string;
  openai_api_key : option string;
  cohere_api_key : option string;
  openai_embedding_api_key : option string
}.
End Settings.

Module Health.
Record t : Type := mk {
  status : string;
  qdrant : string;
  postgres : string;
  llm_service : string;
  embedding_service : string
}.
End Health.

Definition probe_status (probe : Outcome unit) : string :=
  match probe with
  | Returns _ => "connected"
  | Raises msg => "error: " ++ msg
  end.

(** [qdrant_probe] is [client.get_collections()], [postgres_probe] is
    [SELECT 1] on a pooled connection. *)
Definition health_check (qdrant_probe postgres_probe : Outcome unit)
  (settings : Settings.t) : Health.t :=
  let qdrant := probe_status qdrant_probe in
  let postgres := probe_status postgres_probe in
  let llm_service :=
    if PyStr.truthy (Settings.gemini_api_key settings) then "gemini connected"
    else if PyStr.truthy (Settings.openai_api_key settings) then "openai connected"
    else "warning: no api key configured" in
  let embedding_service :=
    if PyStr.truthy (Settings.cohere_api_key settings) then "cohere connected"
    else if PyStr.truthy (Settings.openai_embedding_api_key settings)
         then "openai embedding connected"
    else "warning: no embedding api key configured" in
  let all_connected_or_warning :=
    forallb (fun status => PyStr.startswith "connected" status
                           || PyStr.startswith "warning" status)
            [qdrant; postgres; llm_service; embedding_service] in
  Health.mk (if all_connected_or_warning then "healthy" else "unhealthy")
    qdrant postgres llm_service embedding_service.

(** ** Vocabulary of the statements *)

Definition head_nonspace (p : string) : bool :=
  match p with
  | EmptyString => false
  | String a _ => negb (PyStr.is_space a)
  end.

Fixpoint last_nonspace (p : string) : bool :=
  match p with
  | EmptyString => false
  | String a EmptyString => negb (PyStr.is_space a)
  | String _ p' => last_nonspace p'
  end.

(** The second and third rule of the validator, as conditions. *)
Definition bad_mode (q : QueryRequest.t) : bool :=
  negb (str_in (QueryRequest.query_mode q) ["book-wide"; "selected-text"]).

Definition selected_required (q : QueryRequest.t) : bool :=
  (QueryRequest.query_mode q =? "selected-text")
  && selected_text_missing (QueryRequest.selected_text q).

(** The calls a request can cause: the embedding of its question, the
    calls of its retrieval, a text generation. *)
Definition pipeline_call (w : World) (q : QueryRequest.t) (c : Call) : Prop :=
  c = CallEmbed (QueryRequest.question q)
  \/ (exists query_embedding,
        In c (trace (retrieve_for_query w query_embedding
                       (QueryRequest.query_mode q)
                       (QueryRequest.selected_text q) 5)))
  \/ (exists prompt, c = CallGenerate prompt).

(** No text generation call occurs in a trace. *)
Definition no_generation (t : list Call) : Prop :=
  forall prompt, ~ In (CallGenerate prompt) t.

(** No vector search occurs in a trace. *)
Definition no_search (t : list Call) : Prop :=
  forall query limit, ~ In (CallSearch query limit) t.

(** The explanations a refusal of the generation service can carry. *)
Definition generation_refusal_explanations : list string :=
  ["No relevant context found to answer the question from the textbook.";
   "No relevant context found in the provided information.";
   "No relevant information found in the selected text to answer the question.";
   "No response was generated from the model."].

(** The three shapes of a generation result. *)
Inductive GenShape : GenerationResult.t -> Prop :=
| ShapeRefused (expl : string) :
    In expl generation_refusal_explanations ->
    GenShape (GenerationResult.mk None "insufficient_context" None
                (Some "NO_RELEVANT_CONTEXT") (Some expl))
| ShapeSuccess (a : string) :
    GenShape (GenerationResult.mk (Some a) "success" (Some (17 # 20)) None None)
| ShapeError (msg : string) :
    GenShape (GenerationResult.mk None "error" None (Some "ERROR")
                (Some ("Error generating response: " ++ msg))).

(** The response of the endpoint's [except Exception] handler. *)
Definition handler_response (w : World) (q : QueryRequest.t) (e : PyExc)
  : Response.t :=
  format_refusal_response (QueryRequest.id q) "ERROR"
    ("An error occurred while processing your request: " ++ str_exc w e).

(** The refusal of the endpoint's pre-retrieval branch. *)
Definition pre_retrieval_refusal (q : QueryRequest.t) : Response.t :=
  format_refusal_response (QueryRequest.id q) "NO_RELEVANT_CONTEXT"
    "The query does not contain enough information to generate an answer.".

(** The responses the endpoint can return, by the path that produced them. *)
Inductive Terminal (w : World) (q : QueryRequest.t) : Response.t -> Prop :=
| TerminalHandler (e : PyExc) :
    Terminal w q (handler_response w q e)
| TerminalGate (chunks : list DocumentChunk.t) (reason_code explanation : string) :
    check_refusal_conditions q chunks None = Some (reason_code, explanation) ->
    Terminal w q (format_refusal_response (QueryRequest.id q) reason_code explanation)
| TerminalGeneration (g : GenerationResult.t) :
    GenShape g ->
    GenerationResult.status g = "insufficient_context" ->
    Terminal w q
      (format_refusal_response (QueryRequest.id q)
         (get_default (GenerationResult.reason_code g) "NO_RELEVANT_CONTEXT")
         (get_default (GenerationResult.explanation g)
            "Could not generate an answer based on the provided context."))
| TerminalCitation (msg : string) :
    Terminal w q
      (format_refusal_response (QueryRequest.id q) "CITATION_FAILURE"
         ("Citations could not be generated: " ++ msg))
| TerminalAnswer (chunks : list DocumentChunk.t) (g : GenerationResult.t) :
    check_refusal_conditions q chunks None = None ->
    GenShape g ->
    GenerationResult.status g <> "insufficient_context" ->
    forallb validate_citation_format
      (format_citations chunks (QueryRequest.id q)) = true ->
    Terminal w q
      (Response.mk ("resp_" ++ QueryRequest.id q) (QueryRequest.id q)
         (GenerationResult.answer g) None None
         (format_citations chunks (QueryRequest.id q))
         (map DocumentChunk.id chunks)
         (GenerationResult.confidence_score g)
         (elapsed_ms w)
         (GenerationResult.status g)).

(** ** Scenarios: concrete providers and requests *)

Definition hit_ai : ScoredPoint.t :=
  ScoredPoint.mk "17"
    (Some "Artificial intelligence is the simulation of human intelligence")
    None None None (Some "doc_ai_1") (Some 0%Z).

(** a hit whose text is a single blank *)
Definition hit_blank : ScoredPoint.t :=
  ScoredPoint.mk "18" (Some " ") None None None (Some "doc_1") (Some 0%Z).

(** a hit without a [document_id] in its payload *)
Definition hit_unsourced : ScoredPoint.t :=
  ScoredPoint.mk "19" (Some "Robots have joints.") None None None None (Some 0%Z).

Definition render_http (c : Z) (err : string) (details : list string) : string :=
  err ++ ": " ++ PyStr.join "; " details.

(** every provider answers *)
Definition world_ai : World :=
  mkWorld (fun _ => Returns [1 # 10; 2 # 10; 3 # 10])
          (fun _ _ => Returns [hit_ai])
          (fun _ => Returns "AI is the simulation of human intelligence.")
          12 render_http.

Definition with_hits (hits : list ScoredPoint.t) (w : World) : World :=
  mkWorld (embed w) (fun _ _ => Returns hits) (generate_content w)
          (elapsed_ms w) (http_exception_str w).

Definition with_model (o : Outcome string) (w : World) : World :=
  mkWorld (embed w) (query_points w) (fun _ => o)
          (elapsed_ms w) (http_exception_str w).

Definition with_embedder (o : Outcome (list Q)) (w : World) : World :=
  mkWorld (fun _ => o) (query_points w) (generate_content w)
          (elapsed_ms w) (http_exception_str w).

Definition request_ai : QueryRequest.t :=
  QueryRequest.mk "q1" "What is artificial intelligence?" "book-wide" None.

Definition request_hi : QueryRequest.t :=
  QueryRequest.mk "q2" "Hi" "book-wide" None.

Definition request_selected : QueryRequest.t :=
  QueryRequest.mk "q3" "What does this text say?" "selected-text"
    (Some "Robots have joints.").

(** ** Vocabulary of the further statements *)

(** a hit from which the book-wide loop extracts a text *)
Definition has_text (p : ScoredPoint.t) : bool :=
  negb (PyStr.is_empty (payload_text_of p)).

(** a hit from which the loop of [retrieve_by_document_id] extracts a text *)
Definition has_scrolled_text (p : ScoredPoint.t) : bool :=
  negb (PyStr.is_empty (scrolled_text_of p)).

Definition chunk_of_point (p : ScoredPoint.t) : DocumentChunk.t :=
  DocumentChunk.mk (ScoredPoint.id p)
    (get_default (ScoredPoint.payload_document_id p) EmptyString)
    (payload_text_of p)
    (get_default (ScoredPoint.payload_chunk_index p) 0%Z).

(** a digit of a lower-case hexadecimal digest *)
Definition is_hex (c : ascii) : bool :=
  PyStr.between 48 57 (PyStr.code c) || PyStr.between 97 102 (PyStr.code c).

Fixpoint all_chars (f : ascii -> bool) (s : string) : bool :=
  match s with
  | EmptyString => true
  | String c s' => f c && all_chars f s'
  end.

(** The calls of one request, in the order of the pipeline: the embedding
    first, then at most one search with limit 5, then at most one text
    generation. *)
Definition pipeline_order (t : list Call) : bool :=
  match t with
  | [] => true
  | [CallEmbed _] => true
  | [CallEmbed _; CallSearch _ k] => (k =? 5)%nat
  | [CallEmbed _; CallGenerate _] => true
  | [CallEmbed _; CallSearch _ k; CallGenerate _] => (k =? 5)%nat
  | _ => false
  end.

(** The identifier of the citation at position [i] of a response. *)
Definition citation_id (response_id : string) (i : nat) : string :=
  "cit_" ++ response_id ++ "_" ++ PyStr.of_nat i.


(** The text rebuilt from overlapping chunks: the first chunk, then every
    later chunk without its first [overlap] characters. *)
Definition rebuild (overlap : nat) (chunks : list string) : string :=
  match chunks with
  | [] => EmptyString
  | c :: rest => c ++ String.concat EmptyString (map (PyText.drop overlap) rest)
  end.

(** * Properties *)

(** ** Sanity checks of the string primitives *)

Example strip_example : PyStr.strip "  Hi there
 " = "Hi there".
Proof. reflexivity. Qed.

Example title_example : PyStr.title "intro-to ai2x" = "Intro-To Ai2X".
Proof. reflexivity. Qed.

Example split_example : PyStr.split "_"%char "ch4_sec1_" = ["ch4"; "sec1"; EmptyString].
Proof. reflexivity. Qed.

Example re_chapter_example : PyStr.re_chapter "xch 12_sec1" = Some "12".
Proof. reflexivity. Qed.

Example re_section_example : PyStr.re_section "section_2 sec3.14.1" = Some "3.14".
Proof. reflexivity. Qed.

Example chapter_examples :
  _extract_chapter_from_path "ch3_methods" = "Chapter 3"
  /\ _extract_chapter_from_path "doc_123" = "Doc"
  /\ _extract_chapter_from_path "doc" = "Unknown Chapter".
Proof. repeat split; reflexivity. Qed.

Example section_examples :
  _extract_section_from_path "ch4_sec1_implementation" = "Section 1"
  /\ _extract_section_from_path "doc" = "General".
Proof. repeat split; reflexivity. Qed.

(** ** Whitespace stripping and substring search *)

Section StripContains.

Import PyStr.

Lemma is_space_lower_char (c : ascii) : is_space (lower_char c) = is_space c.
Proof. destruct c as [[] [] [] [] [] [] [] []]; reflexivity. Qed.

Lemma is_empty_lower (s : string) : is_empty (lower s) = is_empty s.
Proof. destruct s; reflexivity. Qed.

Lemma lower_lstrip (s : string) : lower (lstrip s) = lstrip (lower s).
Proof.
  induction s as [|c s IH]; simpl; [reflexivity|].
  rewrite is_space_lower_char.
  destruct (is_space c); [exact IH | reflexivity].
Qed.

Lemma lower_rstrip (s : string) : lower (rstrip s) = rstrip (lower s).
Proof.
  induction s as [|c s IH]; simpl; [reflexivity|].
  rewrite <- IH, is_space_lower_char.
  destruct (rstrip s); simpl; [destruct (is_space c)|]; reflexivity.
Qed.

Lemma lower_strip (s : string) : lower (strip s) = strip (lower s).
Proof. unfold strip. now rewrite lower_rstrip, lower_lstrip. Qed.

Lemma startswith_space (p : string) (c : ascii) (s : string) :
  head_nonspace p = true -> is_space c = true -> startswith p (String c s) = false.
Proof.
  destruct p as [|a p]; simpl; [discriminate|].
  intros Ha Hc. destruct (Ascii.eqb_spec a c) as [->|]; [|reflexivity].
  rewrite Hc in Ha. discriminate.
Qed.

Lemma contains_lstrip (p s : string) :
  head_nonspace p = true -> contains p (lstrip s) = contains p s.
Proof.
  intros Hp. induction s as [|c s IH]; [reflexivity|].
  simpl lstrip. destruct (is_space c) eqn:Hc; [|reflexivity].
  rewrite IH. simpl contains at 2.
  now rewrite (startswith_space p c s Hp Hc).
Qed.

Lemma rstrip_cons (c : ascii) (s : string) :
  rstrip (String c s) = EmptyString /\ is_space c = true /\ rstrip s = EmptyString
  \/ rstrip (String c s) = String c (rstrip s).
Proof.
  simpl. destruct (rstrip s); [destruct (is_space c)|]; auto.
Qed.

Lemma startswith_empty (p : string) :
  startswith p EmptyString = is_empty p.
Proof. destruct p; reflexivity. Qed.

Lemma last_nonspace_nonempty (p : string) :
  last_nonspace p = true -> is_empty p = false.
Proof. destruct p; [discriminate | reflexivity]. Qed.

Lemma startswith_rstrip (p s : string) :
  last_nonspace p = true -> startswith p (rstrip s) = startswith p s.
Proof.
  revert p. induction s as [|c s IH]; intros p Hp; [reflexivity|].
  destruct p as [|a p]; [discriminate|].
  destruct (rstrip_cons c s) as [(E & Hc & Es) | E]; rewrite E.
  - simpl. destruct p as [|b p].
    + simpl in Hp. destruct (Ascii.eqb_spec a c) as [->|]; [|reflexivity].
      rewrite Hc in Hp. discriminate.
    + rewrite <- (IH (String b p) Hp), Es. simpl.
      now rewrite andb_false_r.
  - simpl. destruct p as [|b p].
    + now destruct (rstrip s), s.
    + now rewrite (IH (String b p) Hp).
Qed.

Lemma contains_rstrip (p s : string) :
  last_nonspace p = true -> contains p (rstrip s) = contains p s.
Proof.
  intros Hp. induction s as [|c s IH]; [reflexivity|].
  simpl contains at 2.
  rewrite <- IH, <- (startswith_rstrip p (String c s) Hp).
  destruct (rstrip_cons c s) as [(E & _ & Es) | E]; rewrite E.
  - rewrite Es. simpl. now destruct (startswith p EmptyString).
  - reflexivity.
Qed.

Lemma contains_strip (p s : string) :
  head_nonspace p = true -> last_nonspace p = true ->
  contains p (strip s) = contains p s.
Proof.
  intros Hh Hl. unfold strip.
  now rewrite contains_rstrip, contains_lstrip.
Qed.

End StripContains.

(** ** Retrieval *)

Section Retrieval.

Variable w : World.
Variable query_embedding : list Q.
Variable top_k : nat.

Lemma truthy_Some (s : string) :
  s <> EmptyString -> PyStr.truthy (Some s) = true.
Proof. destruct s; [congruence | reflexivity]. Qed.

Lemma retrieve_book_wide_trace :
  trace (_retrieve_book_wide w query_embedding top_k)
  = [CallSearch query_embedding top_k].
Proof.
  unfold _retrieve_book_wide, call, bind, trace.
  destruct (query_points w query_embedding top_k); reflexivity.
Qed.

Lemma retrieve_selected (selected_text : string) :
  selected_text <> EmptyString ->
  retrieve_for_query w query_embedding "selected-text" (Some selected_text) top_k
  = _retrieve_from_selected_text selected_text top_k.
Proof.
  intros Hne. unfold retrieve_for_query.
  rewrite (truthy_Some _ Hne). reflexivity.
Qed.

(** In selected-text mode with a non-empty selected text the retriever
    answers with exactly one passage, whose content is the selected text and
    whose source is the sentinel [selected_text_session]; the answer makes
    no provider call and does not depend on the embedding or on the world. *)
Lemma selected_text_passage (selected_text : string) :
  selected_text <> EmptyString ->
  retrieve_for_query w query_embedding "selected-text" (Some selected_text) top_k
  = ([], inr [DocumentChunk.mk "temp_selected_text" "selected_text_session"
                selected_text 0%Z]).
Proof.
  intros Hne. rewrite (retrieve_selected _ Hne). reflexivity.
Qed.

(** C9: in selected-text mode with a selected text that is [None] or empty
    the retriever takes the book-wide branch: it is the similarity search
    against the index, and the search call is made. *)
Theorem selected_text_fallthrough (selected_text : option string) :
  PyStr.falsy selected_text = true ->
  retrieve_for_query w query_embedding "selected-text" selected_text top_k
  = _retrieve_book_wide w query_embedding top_k
  /\ trace (retrieve_for_query w query_embedding "selected-text" selected_text top_k)
     = [CallSearch query_embedding top_k]
  /\ result (retrieve_for_query w query_embedding "selected-text" selected_text top_k)
     = match query_points w query_embedding top_k with
       | Returns points => inr (chunks_of_points points)
       | Raises msg => inl (ProviderError msg)
       end.
Proof.
  intros Hf.
  assert (E : retrieve_for_query w query_embedding "selected-text" selected_text top_k
              = _retrieve_book_wide w query_embedding top_k).
  { unfold retrieve_for_query, PyStr.truthy. rewrite Hf. reflexivity. }
  rewrite E. split; [reflexivity|]. split; [apply retrieve_book_wide_trace|].
  unfold _retrieve_book_wide, call, bind, result.
  destruct (query_points w query_embedding top_k); reflexivity.
Qed.

End Retrieval.

(** Called on its own with mode selected-text and an empty selected text,
    the retriever searches the index and returns the corpus passage.  The
    endpoint never makes this call: request validation rejects a
    selected-text request without a selected text before retrieval. *)
Example empty_selected_text_searches :
  retrieve_for_query world_ai [1 # 2] "selected-text" (Some EmptyString) 5
  = ([CallSearch [1 # 2] 5],
     inr [DocumentChunk.mk "17" "doc_ai_1"
            "Artificial intelligence is the simulation of human intelligence" 0%Z])
  /\ retrieve_for_query world_ai [1 # 2] "selected-text" (Some EmptyString) 5
     <> ([], inr [DocumentChunk.mk "temp_selected_text" "selected_text_session"
                    EmptyString 0%Z]).
Proof. split; [reflexivity | discriminate]. Qed.

Lemma selected_text_fallthrough_witness :
  PyStr.falsy None = true
  /\ trace (retrieve_for_query world_ai [1 # 2] "selected-text" None 5)
     = [CallSearch [1 # 2] 5].
Proof.
  split; [reflexivity|].
  apply (selected_text_fallthrough world_ai [1 # 2] 5 None). reflexivity.
Defined.

(** ** Interpretation of the model output *)

Section ModelOutput.

Variable w : World.
Variable svc : LLMService.
Variables question context : string.

Lemma phrases_trimmed :
  forallb (fun p => head_nonspace (PyStr.lower p) && last_nonspace (PyStr.lower p))
          (refusal_phrases svc) = true.
Proof. destruct svc; reflexivity. Qed.

(** Stripping the output does not change which phrases it contains. *)
Lemma indicates_refusal_strip (text : string) :
  indicates_refusal svc (PyStr.strip text) = indicates_refusal svc text.
Proof.
  unfold indicates_refusal.
  pose proof phrases_trimmed as H.
  induction (refusal_phrases svc) as [|p l IH]; [reflexivity|].
  simpl in H. apply andb_true_iff in H as [Hp Hl].
  apply andb_true_iff in Hp as [Hh Ht].
  simpl. rewrite (IH Hl), lower_strip, contains_strip by assumption.
  reflexivity.
Qed.

Lemma indicates_refusal_nonempty (text : string) :
  indicates_refusal svc text = true -> PyStr.is_empty text = false.
Proof. destruct text; [destruct svc; discriminate | reflexivity]. Qed.

Lemma generate_rag_response_returns (text : string) :
  generate_content w (rag_prompt svc question context) = Returns text ->
  generate_rag_response w svc question context
  = ([CallGenerate (rag_prompt svc question context)],
     inr (interpret_text svc text)).
Proof.
  intros E. unfold generate_rag_response, try_except, bind, call.
  rewrite E. reflexivity.
Qed.

(** C8, as amended: when the model returns a text, (1) if the text contains
    one of the service's refusal phrases, compared in lower case, the result
    is [insufficient_context] with reason [NO_RELEVANT_CONTEXT] and no
    answer, whatever else the text says; (2) if it contains none and is not
    empty, the result is [success] with the stripped text as answer and the
    fixed confidence 0.85. *)
Theorem refusal_phrase_forces_refusal (text : string) :
  generate_content w (rag_prompt svc question context) = Returns text ->
  (indicates_refusal svc text = true ->
   result (generate_rag_response w svc question context)
   = inr (GenerationResult.mk None "insufficient_context" None
            (Some "NO_RELEVANT_CONTEXT") (Some (refusal_explanation svc))))
  /\ (indicates_refusal svc text = false -> text <> EmptyString ->
      result (generate_rag_response w svc question context)
      = inr (GenerationResult.mk (Some (PyStr.strip text)) "success"
               (Some (17 # 20)) None None)).
Proof.
  intros E. rewrite (generate_rag_response_returns text E).
  unfold result, interpret_text; simpl snd.
  rewrite indicates_refusal_strip. split.
  - intros Hr. rewrite (indicates_refusal_nonempty text Hr), Hr. reflexivity.
  - intros Hr Hne. rewrite Hr. destruct text; [congruence | reflexivity].
Qed.

End ModelOutput.

Lemma refusal_phrase_forces_refusal_witness :
  (GenerationResult.status
     (interpret_text GeminiLLMService "Sorry, I CANNOT Answer that.")
   = "insufficient_context")
  /\ result (generate_rag_response
               (with_model (Returns "Sorry, I CANNOT Answer that.") world_ai)
               GeminiLLMService "Why?" "ctx")
     = inr (GenerationResult.mk None "insufficient_context" None
              (Some "NO_RELEVANT_CONTEXT")
              (Some "No relevant context found in the provided information."))
  /\ result (generate_rag_response world_ai SelectedTextGeminiLLMService "Why?" "ctx")
     = inr (GenerationResult.mk
              (Some "AI is the simulation of human intelligence.") "success"
              (Some (17 # 20)) None None).
Proof.
  split; [reflexivity|]. split.
  - apply (refusal_phrase_forces_refusal
             (with_model (Returns "Sorry, I CANNOT Answer that.") world_ai)
             GeminiLLMService "Why?" "ctx" "Sorry, I CANNOT Answer that.");
      reflexivity.
  - apply (refusal_phrase_forces_refusal world_ai SelectedTextGeminiLLMService
             "Why?" "ctx" "AI is the simulation of human intelligence.");
      [reflexivity | reflexivity | discriminate].
Defined.

(** C8 as stated fails on an empty output: it contains no refusal phrase,
    and the result is [insufficient_context], not [success]. *)
Lemma empty_output_counterexample :
  generate_content (with_model (Returns EmptyString) world_ai)
    (rag_prompt GeminiLLMService "Why?" "ctx") = Returns EmptyString
  /\ indicates_refusal GeminiLLMService EmptyString = false
  /\ result (generate_rag_response (with_model (Returns EmptyString) world_ai)
               GeminiLLMService "Why?" "ctx")
     = inr (GenerationResult.mk None "insufficient_context" None
              (Some "NO_RELEVANT_CONTEXT")
              (Some "No response was generated from the model."))
  /\ GenerationResult.status
       (interpret_text GeminiLLMService EmptyString) <> "success".
Proof. repeat split; try reflexivity. discriminate. Qed.

(** ** Request validation *)

Section RequestValidation.

Variable q : QueryRequest.t.

(** The validator reports every violated rule, in the order of the rules. *)
Lemma validate_query_request_collects :
  validate_query_request q
  = ((if question_too_short (QueryRequest.question q) then [err_question] else [])
     ++ (if bad_mode q then [err_mode] else [])
     ++ (if selected_required q then [err_selected] else []))%list.
Proof.
  unfold validate_query_request, bad_mode, selected_required.
  destruct (question_too_short _), (negb (str_in _ _)),
    (QueryRequest.query_mode q =? "selected-text"),
    (selected_text_missing _); reflexivity.
Qed.

Lemma validate_query_request_complete :
  (In err_question (validate_query_request q)
   <-> question_too_short (QueryRequest.question q) = true)
  /\ (In err_mode (validate_query_request q) <-> bad_mode q = true)
  /\ (In err_selected (validate_query_request q) <-> selected_required q = true).
Proof.
  rewrite validate_query_request_collects.
  destruct (question_too_short _), (bad_mode q), (selected_required q); simpl;
    repeat split; intros H; try reflexivity; try discriminate; auto;
    repeat (destruct H as [H|H]; try discriminate H); try contradiction.
Qed.

Lemma valid_request_rules :
  validate_query_request q = [] ->
  question_too_short (QueryRequest.question q) = false
  /\ bad_mode q = false /\ selected_required q = false.
Proof.
  rewrite validate_query_request_collects.
  destruct (question_too_short _), (bad_mode q), (selected_required q);
    simpl; intros H; try discriminate H; auto.
Qed.

Lemma valid_request_can_generate :
  validate_query_request q = [] -> validate_generation_ability q = ret true.
Proof.
  intros H. apply valid_request_rules in H as (Hq & _).
  unfold validate_generation_ability.
  unfold question_too_short in Hq. rewrite Hq. reflexivity.
Qed.

(** A validated selected-text request carries a non-empty selected text. *)
Lemma valid_selected_text_truthy :
  validate_query_request q = [] ->
  QueryRequest.query_mode q = "selected-text" ->
  exists s, QueryRequest.selected_text q = Some s /\ s <> EmptyString.
Proof.
  intros H Hm. apply valid_request_rules in H as (_ & _ & Hs).
  unfold selected_required in Hs. rewrite Hm in Hs. simpl in Hs.
  destruct (QueryRequest.selected_text q) as [s|]; [|discriminate].
  exists s. split; [reflexivity|]. intros ->. discriminate.
Qed.

End RequestValidation.

(** ** The computation monad *)

Lemma bind_inr {A B} (t : list Call) (a : A) (k : A -> M B) :
  bind (t, inr a) k = ((t ++ trace (k a))%list, result (k a)).
Proof. unfold bind, trace, result. destruct (k a); reflexivity. Qed.

Lemma bind_inl {A B} (t : list Call) (e : PyExc) (k : A -> M B) :
  bind (t, inl e) k = (t, inl e).
Proof. reflexivity. Qed.

Lemma bind_ret {A B} (a : A) (k : A -> M B) : bind (ret a) k = k a.
Proof. unfold ret, bind. destruct (k a); reflexivity. Qed.

Lemma try_except_inl {A} (t : list Call) (e : PyExc) (h : PyExc -> M A) :
  try_except (t, inl e) h = ((t ++ trace (h e))%list, result (h e)).
Proof. unfold try_except, trace, result. destruct (h e); reflexivity. Qed.

Lemma try_except_inr {A} (t : list Call) (a : A) (h : PyExc -> M A) :
  try_except (t, inr a) h = (t, inr a).
Proof. reflexivity. Qed.

Lemma M_eta {A} (m : M A) : m = (trace m, result m).
Proof. destruct m; reflexivity. Qed.

(** ** Citation construction *)

Section Citations.

Variable response_id : string.

Lemma format_citations_from_length (chunks : list DocumentChunk.t) (i : nat) :
  List.length (format_citations_from i chunks response_id) = List.length chunks.
Proof.
  revert i. induction chunks as [|c l IH]; intros i; simpl; [reflexivity|].
  now rewrite IH.
Qed.

Lemma format_citations_length (chunks : list DocumentChunk.t) :
  List.length (format_citations chunks response_id) = List.length chunks.
Proof. apply format_citations_from_length. Qed.

Lemma format_citations_list_id (citations : list Citation.t) :
  format_citations_list citations = citations.
Proof.
  unfold format_citations_list.
  induction citations as [|c l IH]; simpl; [reflexivity|].
  rewrite IH. now destruct c.
Qed.

Lemma check_citations_valid (citations : list Citation.t) :
  forallb validate_citation_format citations = true ->
  check_citations citations = ret tt.
Proof.
  induction citations as [|c l IH]; simpl; [reflexivity|].
  intros H. apply andb_true_iff in H as [Hc Hl].
  rewrite Hc. simpl. exact (IH Hl).
Qed.

Lemma check_citations_invalid (citations : list Citation.t) :
  forallb validate_citation_format citations = false ->
  exists c, In c citations /\ validate_citation_format c = false
            /\ check_citations citations
               = raise (ValueError ("Invalid citation format for document "
                                    ++ Citation.document_id c)).
Proof.
  induction citations as [|c l IH]; simpl; [discriminate|].
  destruct (validate_citation_format c) eqn:Hc; simpl.
  - intros H. destruct (IH H) as (c' & Hin & Hv & E).
    exists c'. auto.
  - intros _. exists c. auto.
Qed.

Lemma generate_citation_valid (chunks : list DocumentChunk.t) :
  forallb validate_citation_format (format_citations chunks response_id) = true ->
  generate_citation_for_response chunks response_id
  = ret (format_citations chunks response_id).
Proof.
  intros H. unfold generate_citation_for_response.
  rewrite (check_citations_valid _ H). reflexivity.
Qed.

Lemma generate_citation_invalid (chunks : list DocumentChunk.t) :
  forallb validate_citation_format (format_citations chunks response_id) = false ->
  exists c, In c (format_citations chunks response_id)
            /\ validate_citation_format c = false
            /\ generate_citation_for_response chunks response_id
               = raise (ValueError ("Invalid citation format for document "
                                    ++ Citation.document_id c)).
Proof.
  intros H. destruct (check_citations_invalid _ H) as (c & Hin & Hv & E).
  exists c. repeat split; try assumption.
  unfold generate_citation_for_response. rewrite E. reflexivity.
Qed.

(** What [validate_citation_format] checks, field by field. *)
Lemma validate_citation_format_spec (c : Citation.t) :
  validate_citation_format c = true <->
  PyStr.strip (Citation.chapter c) <> EmptyString
  /\ PyStr.strip (Citation.section c) <> EmptyString
  /\ PyStr.strip (Citation.file_path c) <> EmptyString
  /\ PyStr.strip (Citation.text_snippet c) <> EmptyString
  /\ (0 <= Citation.relevance_score c)%Q /\ (Citation.relevance_score c <= 1)%Q.
Proof.
  unfold validate_citation_format, required_fields, field_missing, score_in_range.
  simpl existsb.
  assert (F : forall s, PyStr.is_empty s || PyStr.is_empty (PyStr.strip s) = false
                        <-> PyStr.strip s <> EmptyString).
  { intros s. destruct s as [|a s].
    - cbn. split; [discriminate | intros H; now elim H].
    - cbn [PyStr.is_empty orb].
      destruct (PyStr.strip (String a s)); cbn; split; congruence. }
  rewrite <- !F, <- !Qle_bool_iff.
  repeat match goal with
         | |- context [PyStr.is_empty ?x || PyStr.is_empty (PyStr.strip ?x)] =>
             generalize (PyStr.is_empty x || PyStr.is_empty (PyStr.strip x));
             intro
         end.
  repeat match goal with
         | |- context [Qle_bool ?x ?y] => generalize (Qle_bool x y); intro
         end.
  repeat match goal with b : bool |- _ => destruct b end;
    simpl; intuition congruence.
Qed.

End Citations.

(** ** Generation *)

Lemma interpret_text_shape (svc : LLMService) (text : string) :
  GenShape (interpret_text svc text).
Proof.
  unfold interpret_text, insufficient.
  destruct (PyStr.is_empty text); simpl.
  - apply ShapeRefused. simpl. auto.
  - destruct (indicates_refusal svc (PyStr.strip text)).
    + apply ShapeRefused. destruct svc; simpl; auto.
    + apply ShapeSuccess.
Qed.

Lemma generate_rag_response_shape (w : World) (svc : LLMService)
  (question context : string) :
  exists g, generate_rag_response w svc question context
            = ([CallGenerate (rag_prompt svc question context)], inr g)
            /\ GenShape g.
Proof.
  unfold generate_rag_response, try_except, bind, call.
  destruct (generate_content w (rag_prompt svc question context)) as [text|msg].
  - exists (interpret_text svc text). split; [reflexivity|].
    apply interpret_text_shape.
  - exists (generation_error w (ProviderError msg)). split; [reflexivity|].
    apply ShapeError.
Qed.

(** The generation service never raises, and its result has one of the
    three shapes. *)
Lemma generate_answer_shape (w : World) (q : QueryRequest.t)
  (chunks : list DocumentChunk.t) :
  exists t g, generate_answer w q chunks = (t, inr g) /\ GenShape g.
Proof.
  unfold generate_answer. destruct chunks as [|c l].
  - eexists _, _. split; [reflexivity|].
    apply ShapeRefused. simpl. auto.
  - destruct (_ && _);
      match goal with
      | |- context [generate_rag_response ?w ?s ?a ?b] =>
          destruct (generate_rag_response_shape w s a b) as (g & E & Hg)
      end; rewrite E; eauto.
Qed.

Lemma GenShape_success (g : GenerationResult.t) :
  GenShape g -> GenerationResult.status g = "success" ->
  exists a, GenerationResult.answer g = Some a.
Proof. intros [expl _|a|msg]; simpl; intros H; try discriminate H; eauto. Qed.

Lemma GenShape_error (g : GenerationResult.t) :
  GenShape g -> GenerationResult.status g = "error" ->
  GenerationResult.answer g = None /\ GenerationResult.confidence_score g = None.
Proof. intros [expl _|a|msg]; simpl; intros H; try discriminate H; auto. Qed.

(** ** The paths through the endpoint *)

Section Paths.

Variable w : World.
Variable q : QueryRequest.t.

Lemma path_invalid (e : string) (es : list string) :
  validate_query_request q = e :: es ->
  query_endpoint w q
  = ([], inr (handler_response w q
                (HTTPException 400 "Invalid query parameters" (e :: es)))).
Proof.
  intros Hv. unfold query_endpoint, query_endpoint_try. rewrite Hv.
  reflexivity.
Qed.

Lemma path_try_valid :
  validate_query_request q = [] ->
  query_endpoint_try w q
  = (query_embedding <- create_single_embedding w (QueryRequest.question q) ;;
     retrieved_chunks <- retrieve_for_query w query_embedding
                           (QueryRequest.query_mode q)
                           (QueryRequest.selected_text q) 5 ;;
     match check_refusal_conditions q retrieved_chunks None with
     | Some (reason_code, explanation) =>
         ret (format_refusal_response (QueryRequest.id q) reason_code explanation)
     | None =>
         generation_result <- generate_answer w q retrieved_chunks ;;
         if GenerationResult.status generation_result =? "insufficient_context"
         then ret (format_refusal_response (QueryRequest.id q)
                     (get_default (GenerationResult.reason_code generation_result)
                        "NO_RELEVANT_CONTEXT")
                     (get_default (GenerationResult.explanation generation_result)
                        "Could not generate an answer based on the provided context."))
         else
           cited <- try_ValueError
                      (generate_citation_for_response retrieved_chunks
                         (QueryRequest.id q)) ;;
           match cited with
           | inl e =>
               ret (format_refusal_response (QueryRequest.id q) "CITATION_FAILURE"
                      ("Citations could not be generated: " ++ str_exc w e))
           | inr citations =>
               ret (format_response_with_citations
                      (Response.mk ("resp_" ++ QueryRequest.id q) (QueryRequest.id q)
                         (GenerationResult.answer generation_result) None None
                         citations (map DocumentChunk.id retrieved_chunks)
                         (GenerationResult.confidence_score generation_result)
                         (elapsed_ms w)
                         (GenerationResult.status generation_result)))
           end
     end).
Proof.
  intros Hv. unfold query_endpoint_try.
  rewrite Hv, (valid_request_can_generate q Hv), bind_ret. reflexivity.
Qed.

Variable t1 : list Call.

Lemma path_embed_fails (e : PyExc) :
  validate_query_request q = [] ->
  create_single_embedding w (QueryRequest.question q) = (t1, inl e) ->
  query_endpoint w q = (t1, inr (handler_response w q e)).
Proof.
  intros Hv H1. unfold query_endpoint.
  rewrite (path_try_valid Hv), H1, bind_inl, try_except_inl.
  simpl. now rewrite app_nil_r.
Qed.

Variable query_embedding : list Q.
Hypothesis Hvalid : validate_query_request q = [].
Hypothesis Hembed :
  create_single_embedding w (QueryRequest.question q) = (t1, inr query_embedding).

Variable t2 : list Call.

Lemma path_retrieve_fails (e : PyExc) :
  retrieve_for_query w query_embedding (QueryRequest.query_mode q)
    (QueryRequest.selected_text q) 5 = (t2, inl e) ->
  query_endpoint w q = ((t1 ++ t2)%list, inr (handler_response w q e)).
Proof.
  intros H2. unfold query_endpoint.
  rewrite (path_try_valid Hvalid), Hembed, bind_inr.
  cbv beta. rewrite H2, bind_inl. simpl. now rewrite app_nil_r.
Qed.

Variable chunks : list DocumentChunk.t.
Hypothesis Hretrieve :
  retrieve_for_query w query_embedding (QueryRequest.query_mode q)
    (QueryRequest.selected_text q) 5 = (t2, inr chunks).

Lemma path_gate_refuses (reason_code explanation : string) :
  check_refusal_conditions q chunks None = Some (reason_code, explanation) ->
  query_endpoint w q
  = ((t1 ++ t2)%list,
     inr (format_refusal_response (QueryRequest.id q) reason_code explanation)).
Proof.
  intros H3. unfold query_endpoint.
  rewrite (path_try_valid Hvalid), Hembed, bind_inr.
  cbv beta. rewrite Hretrieve, bind_inr. cbv beta. rewrite H3.
  simpl. now rewrite !app_nil_r.
Qed.

Hypothesis Hgate : check_refusal_conditions q chunks None = None.

Variable t3 : list Call.
Variable g : GenerationResult.t.
Hypothesis Hgenerate : generate_answer w q chunks = (t3, inr g).

Lemma path_generation_refuses :
  GenerationResult.status g = "insufficient_context" ->
  query_endpoint w q
  = ((t1 ++ t2 ++ t3)%list,
     inr (format_refusal_response (QueryRequest.id q)
            (get_default (GenerationResult.reason_code g) "NO_RELEVANT_CONTEXT")
            (get_default (GenerationResult.explanation g)
               "Could not generate an answer based on the provided context."))).
Proof.
  intros H4. unfold query_endpoint.
  rewrite (path_try_valid Hvalid), Hembed, bind_inr.
  cbv beta. rewrite Hretrieve, bind_inr. cbv beta. rewrite Hgate, Hgenerate, bind_inr.
  cbv beta. rewrite H4. simpl. now rewrite !app_nil_r.
Qed.

Hypothesis Hstatus : GenerationResult.status g <> "insufficient_context".

Lemma path_citation_fails (msg : string) :
  generate_citation_for_response chunks (QueryRequest.id q)
  = raise (ValueError msg) ->
  query_endpoint w q
  = ((t1 ++ t2 ++ t3)%list,
     inr (format_refusal_response (QueryRequest.id q) "CITATION_FAILURE"
            ("Citations could not be generated: " ++ msg))).
Proof.
  intros H5. unfold query_endpoint.
  rewrite (path_try_valid Hvalid), Hembed, bind_inr.
  cbv beta. rewrite Hretrieve, bind_inr. cbv beta. rewrite Hgate, Hgenerate, bind_inr.
  cbv beta. apply String.eqb_neq in Hstatus. rewrite Hstatus, H5.
  simpl. now rewrite !app_nil_r.
Qed.

Lemma path_answer :
  forallb validate_citation_format (format_citations chunks (QueryRequest.id q))
  = true ->
  query_endpoint w q
  = ((t1 ++ t2 ++ t3)%list,
     inr (Response.mk ("resp_" ++ QueryRequest.id q) (QueryRequest.id q)
            (GenerationResult.answer g) None None
            (format_citations chunks (QueryRequest.id q))
            (map DocumentChunk.id chunks)
            (GenerationResult.confidence_score g)
            (elapsed_ms w)
            (GenerationResult.status g))).
Proof.
  intros H5. unfold query_endpoint.
  rewrite (path_try_valid Hvalid), Hembed, bind_inr.
  cbv beta. rewrite Hretrieve, bind_inr. cbv beta. rewrite Hgate, Hgenerate, bind_inr.
  cbv beta. apply String.eqb_neq in Hstatus.
  rewrite Hstatus, (generate_citation_valid _ _ H5).
  unfold format_response_with_citations. simpl.
  now rewrite format_citations_list_id, !app_nil_r.
Qed.

End Paths.

(** ** Every request ends in one of the terminal responses *)

Lemma embedding_trace (w : World) (text : string) (c : Call) :
  In c (trace (create_single_embedding w text)) -> c = CallEmbed text.
Proof.
  unfold create_single_embedding, call.
  destruct (PyStr.is_empty text); [intros []|].
  destruct (embed w text); simpl; intros [H|[]]; auto.
Qed.

Lemma retrieval_trace (w : World) (emb : list Q) (mode : string)
  (sel : option string) (k : nat) (c : Call) :
  In c (trace (retrieve_for_query w emb mode sel k)) -> c = CallSearch emb k.
Proof.
  unfold retrieve_for_query.
  destruct (_ && _); [intros []|].
  rewrite retrieve_book_wide_trace. intros [H|[]]; auto.
Qed.

Lemma generation_trace (w : World) (q : QueryRequest.t)
  (chunks : list DocumentChunk.t) (c : Call) :
  In c (trace (generate_answer w q chunks)) -> exists prompt, c = CallGenerate prompt.
Proof.
  unfold generate_answer. destruct chunks as [|d l]; [intros []|].
  destruct (_ && _);
    match goal with
    | |- context [generate_rag_response ?w ?s ?a ?b] =>
        destruct (generate_rag_response_shape w s a b) as (g & E & _)
    end; rewrite E; simpl; intros [<-|[]]; eauto.
Qed.

Section Run.

Variable w : World.
Variable q : QueryRequest.t.

Lemma calls_embed (t1 : list Call) (r : PyExc + list Q) (c : Call) :
  create_single_embedding w (QueryRequest.question q) = (t1, r) ->
  In c t1 -> pipeline_call w q c.
Proof.
  intros E Hin. left. apply (embedding_trace w).
  rewrite E. exact Hin.
Qed.

Lemma calls_retrieve (emb : list Q) (t2 : list Call)
  (r : PyExc + list DocumentChunk.t) (c : Call) :
  retrieve_for_query w emb (QueryRequest.query_mode q)
    (QueryRequest.selected_text q) 5 = (t2, r) ->
  In c t2 -> pipeline_call w q c.
Proof.
  intros E Hin. right. left. exists emb. rewrite E. exact Hin.
Qed.

Lemma calls_generate (chunks : list DocumentChunk.t) (t3 : list Call)
  (r : PyExc + GenerationResult.t) (c : Call) :
  generate_answer w q chunks = (t3, r) ->
  In c t3 -> pipeline_call w q c.
Proof.
  intros E Hin. right. right. apply (generation_trace w q chunks).
  rewrite E. exact Hin.
Qed.

(** Every request ends in a terminal response, after calls of the pipeline. *)
Lemma endpoint_run :
  exists t resp,
    query_endpoint w q = (t, inr resp) /\ Terminal w q resp
    /\ forall c, In c t -> pipeline_call w q c.
Proof.
  destruct (validate_query_request q) as [|e es] eqn:Hv.
  2:{ eexists _, _. split; [exact (path_invalid w q e es Hv)|].
      split; [constructor | intros c []]. }
  destruct (create_single_embedding w (QueryRequest.question q))
    as [t1 [e|emb]] eqn:H1.
  { eexists _, _. split; [exact (path_embed_fails w q t1 e Hv H1)|].
    split; [constructor | intros c; apply (calls_embed _ _ _ H1)]. }
  destruct (retrieve_for_query w emb (QueryRequest.query_mode q)
              (QueryRequest.selected_text q) 5) as [t2 [e|chunks]] eqn:H2.
  { eexists _, _. split; [exact (path_retrieve_fails w q t1 emb Hv H1 t2 e H2)|].
    split; [constructor|].
    intros c Hc. apply in_app_or in Hc as [Hc|Hc];
      eauto using calls_embed, calls_retrieve. }
  destruct (check_refusal_conditions q chunks None) as [[rc ex]|] eqn:H3.
  { eexists _, _.
    split; [exact (path_gate_refuses w q t1 emb Hv H1 t2 chunks H2 rc ex H3)|].
    split; [econstructor; eassumption|].
    intros c Hc. apply in_app_or in Hc as [Hc|Hc];
      eauto using calls_embed, calls_retrieve. }
  destruct (generate_answer_shape w q chunks) as (t3 & g & H4 & Hg).
  assert (Hcalls : forall c, In c (t1 ++ t2 ++ t3)%list -> pipeline_call w q c).
  { intros c Hc. apply in_app_or in Hc as [Hc|Hc];
      [|apply in_app_or in Hc as [Hc|Hc]];
      eauto using calls_embed, calls_retrieve, calls_generate. }
  destruct (String.eqb_spec (GenerationResult.status g) "insufficient_context")
    as [Hs|Hs].
  { eexists _, _.
    split; [exact (path_generation_refuses w q t1 emb Hv H1 t2 chunks H2 H3 t3 g H4 Hs)|].
    split; [constructor; assumption | exact Hcalls]. }
  destruct (forallb validate_citation_format
              (format_citations chunks (QueryRequest.id q))) eqn:H5.
  - eexists _, _.
    split; [exact (path_answer w q t1 emb Hv H1 t2 chunks H2 H3 t3 g H4 Hs H5)|].
    split; [constructor; assumption | exact Hcalls].
  - destruct (generate_citation_invalid _ _ H5) as (c & _ & _ & E).
    eexists _, _.
    split; [exact (path_citation_fails w q t1 emb Hv H1 t2 chunks H2 H3 t3 g H4 Hs _ E)|].
    split; [constructor | exact Hcalls].
Qed.

Lemma endpoint_terminal :
  exists t resp, query_endpoint w q = (t, inr resp) /\ Terminal w q resp.
Proof. destruct endpoint_run as (t & resp & E & HT & _). eauto. Qed.

End Run.

Lemma gate_passes_nonempty (q : QueryRequest.t) (chunks : list DocumentChunk.t) :
  check_refusal_conditions q chunks None = None -> chunks <> [].
Proof. intros H ->. discriminate H. Qed.

(** In selected-text mode the endpoint never searches the index: an invalid
    request makes no call at all, a valid one carries a non-empty selected
    text and retrieval answers from it. *)
Lemma selected_text_request_never_searches (w : World) (q : QueryRequest.t) :
  QueryRequest.query_mode q = "selected-text" ->
  no_search (trace (query_endpoint w q)).
Proof.
  intros Hm query limit Hin.
  destruct (validate_query_request q) as [|e es] eqn:Hv.
  - destruct (endpoint_run w q) as (t & resp & E & _ & Hcalls).
    rewrite E in Hin. simpl in Hin.
    destruct (Hcalls _ Hin) as [H|[(emb & H)|(prompt & H)]];
      try discriminate H.
    destruct (valid_selected_text_truthy q Hv Hm) as (s & Hsel & Hne).
    rewrite Hm, Hsel, (retrieve_selected w emb 5 s Hne) in H.
    destruct H.
  - rewrite (path_invalid w q e es Hv) in Hin. destruct Hin.
Qed.

(** C3: for every request with mode selected-text the index is never
    searched while the request is served; and for every such request that
    passes validation (the only requests for which the retriever is called)
    the retriever, whatever the embedding, the limit and the state of the
    providers, returns exactly one passage, whose content is the selected
    text of the request verbatim and whose source is the sentinel
    [selected_text_session], without any provider call. *)
Theorem selected_text_isolation (w : World) (q : QueryRequest.t) :
  QueryRequest.query_mode q = "selected-text" ->
  no_search (trace (query_endpoint w q))
  /\ (validate_query_request q = [] ->
      exists s,
        QueryRequest.selected_text q = Some s
        /\ forall (w' : World) (query_embedding : list Q) (top_k : nat),
             retrieve_for_query w' query_embedding (QueryRequest.query_mode q)
               (QueryRequest.selected_text q) top_k
             = ([], inr [DocumentChunk.mk "temp_selected_text"
                           "selected_text_session" s 0%Z])).
Proof.
  intros Hm. split.
  - intros query limit Hin.
    destruct (validate_query_request q) as [|e es] eqn:Hv.
    + destruct (endpoint_run w q) as (t & resp & E & _ & Hcalls).
      rewrite E in Hin. simpl in Hin.
      destruct (Hcalls _ Hin) as [H|[(emb & H)|(prompt & H)]];
        try discriminate H.
      destruct (valid_selected_text_truthy q Hv Hm) as (s & Hsel & Hne).
      rewrite Hm, Hsel, (retrieve_selected w emb 5 s Hne) in H.
      destruct H.
    + rewrite (path_invalid w q e es Hv) in Hin. destruct Hin.
  - intros Hv.
    destruct (valid_selected_text_truthy q Hv Hm) as (s & Hsel & Hne).
    exists s. split; [exact Hsel|].
    intros w' query_embedding top_k. rewrite Hm, Hsel.
    apply selected_text_passage. exact Hne.
Qed.

Lemma selected_text_isolation_witness :
  no_search (trace (query_endpoint world_ai request_selected))
  /\ retrieve_for_query (with_hits [hit_ai] world_ai) [1 # 2] "selected-text"
       (Some "Robots have joints.") 5
     = ([], inr [DocumentChunk.mk "temp_selected_text" "selected_text_session"
                   "Robots have joints." 0%Z]).
Proof.
  destruct (selected_text_isolation world_ai request_selected eq_refl)
    as (Hs & Hr).
  split; [exact Hs|].
  destruct (Hr eq_refl) as (s & Hsel & E).
  simpl in Hsel. injection Hsel as <-.
  exact (E (with_hits [hit_ai] world_ai) [1 # 2] 5%nat).
Defined.

(** ** Grounded answers *)

(** C1: whenever the endpoint returns a response with status [success], the
    answer is present, the citations are exactly the citations built from a
    non-empty list of retrieved chunks (one per chunk, in order), and every
    citation passes [validate_citation_format]. *)
Theorem success_response_grounded (w : World) (q : QueryRequest.t)
  (t : list Call) (resp : Response.t) :
  query_endpoint w q = (t, inr resp) ->
  Response.status resp = "success" ->
  Response.answer resp <> None
  /\ Response.citations resp <> []
  /\ (exists chunks,
        chunks <> []
        /\ Response.citations resp = format_citations chunks (QueryRequest.id q)
        /\ Response.retrieved_chunks resp = map DocumentChunk.id chunks
        /\ List.length (Response.citations resp) = List.length chunks)
  /\ Forall (fun c => validate_citation_format c = true) (Response.citations resp).
Proof.
  intros E Hs.
  destruct (endpoint_terminal w q) as (t' & resp' & E' & HT).
  rewrite E in E'. injection E' as <- <-.
  destruct HT as [e|chunks rc ex _|g _ _|msg|chunks g Hgate Hg Hns Hvalid];
    try discriminate Hs.
  simpl in *.
  pose proof (gate_passes_nonempty q chunks Hgate) as Hne.
  destruct (GenShape_success g Hg Hs) as (a & Ha).
  repeat split.
  - rewrite Ha. discriminate.
  - intros Hnil. apply Hne.
    apply (f_equal (@List.length _)) in Hnil.
    rewrite format_citations_length in Hnil.
    destruct chunks; [reflexivity | discriminate].
  - exists chunks. repeat split; try assumption; try reflexivity.
    apply format_citations_length.
  - apply Forall_forall. intros c Hin.
    rewrite forallb_forall in Hvalid. auto.
Qed.

Lemma success_response_grounded_witness :
  exists t resp,
    query_endpoint world_ai request_ai = (t, inr resp)
    /\ Response.status resp = "success"
    /\ Response.answer resp = Some "AI is the simulation of human intelligence."
    /\ map Citation.document_id (Response.citations resp) = ["doc_ai_1"]
    /\ Forall (fun c => validate_citation_format c = true) (Response.citations resp).
Proof.
  eexists _, _. split; [reflexivity|].
  split; [reflexivity|]. split; [reflexivity|]. split; [reflexivity|].
  eapply (success_response_grounded world_ai request_ai); reflexivity.
Defined.

(** ** Refusals and errors *)

(** A response with status [insufficient_context] has no answer, no
    citations and no confidence score. *)
Lemma insufficient_context_response_empty (w : World) (q : QueryRequest.t)
  (t : list Call) (resp : Response.t) :
  query_endpoint w q = (t, inr resp) ->
  Response.status resp = "insufficient_context" ->
  Response.answer resp = None /\ Response.citations resp = []
  /\ Response.confidence_score resp = None.
Proof.
  intros E Hs.
  destruct (endpoint_terminal w q) as (t' & resp' & E' & HT).
  rewrite E in E'. injection E' as <- <-.
  destruct HT as [e|chunks rc ex _|g _ _|msg|chunks g _ _ Hns _]; auto.
  simpl in Hs. contradiction.
Qed.

(** A response with status [error] has no answer and no confidence score,
    and it carries the citations of the retrieved chunks. *)
Lemma error_response_carries_citations (w : World) (q : QueryRequest.t)
  (t : list Call) (resp : Response.t) :
  query_endpoint w q = (t, inr resp) ->
  Response.status resp = "error" ->
  Response.answer resp = None /\ Response.confidence_score resp = None
  /\ Response.citations resp <> [].
Proof.
  intros E Hs.
  destruct (endpoint_terminal w q) as (t' & resp' & E' & HT).
  rewrite E in E'. injection E' as <- <-.
  destruct HT as [e|chunks rc ex _|g _ _|msg|chunks g Hgate Hg _ _];
    try discriminate Hs.
  simpl in *. destruct (GenShape_error g Hg Hs) as (Ha & Hc).
  repeat split; try assumption.
  intros Hnil. apply (gate_passes_nonempty q chunks Hgate).
  apply (f_equal (@List.length _)) in Hnil.
  rewrite format_citations_length in Hnil.
  destruct chunks; [reflexivity | discriminate].
Qed.

(** C2, on the code: when the text generation provider fails, the generator
    reports status [error]; the endpoint only intercepts
    [insufficient_context], builds the citations and returns a response
    with status [error], no answer, no confidence score and one citation. *)
Theorem generator_error_keeps_citations :
  exists resp,
    query_endpoint (with_model (Raises "503 model overloaded") world_ai) request_ai
    = ([CallEmbed "What is artificial intelligence?";
        CallSearch [1 # 10; 2 # 10; 3 # 10] 5;
        CallGenerate
          (rag_prompt GeminiLLMService "What is artificial intelligence?"
             (_build_context
                [DocumentChunk.mk "17" "doc_ai_1"
                   "Artificial intelligence is the simulation of human intelligence"
                   0%Z]))],
       inr resp)
    /\ Response.status resp = "error"
    /\ Response.answer resp = None
    /\ Response.confidence_score resp = None
    /\ Response.reason_code resp = None
    /\ Response.explanation resp = None
    /\ map Citation.document_id (Response.citations resp) = ["doc_ai_1"]
    /\ Response.citations resp <> [].
Proof.
  eexists. split; [reflexivity|]. repeat split. discriminate.
Qed.

(** ** The post-retrieval checkpoint *)

Lemma gate_empty (q : QueryRequest.t) :
  check_refusal_conditions q [] None
  = Some ("NO_RELEVANT_CONTEXT",
          "No relevant context found in the textbook to answer the question.").
Proof. reflexivity. Qed.

Lemma gate_unsourced (q : QueryRequest.t) (chunks : list DocumentChunk.t)
  (c : DocumentChunk.t) :
  In c chunks -> DocumentChunk.document_id c = EmptyString ->
  check_refusal_conditions q chunks None
  = Some ("CITATION_FAILURE",
          "Citations cannot be generated for the provided context.").
Proof.
  intros Hin Hd. unfold check_refusal_conditions.
  assert (Hc : _can_generate_citations chunks = false).
  { apply not_true_is_false. unfold _can_generate_citations.
    rewrite forallb_forall. intros H. specialize (H c Hin).
    rewrite Hd in H. discriminate H. }
  rewrite Hc. destruct chunks; [destruct Hin | reflexivity].
Qed.

(** C4: once a validated request has been embedded and retrieval has
    returned [chunks], (1) an empty list is refused: the response has
    status [insufficient_context], reason code [NO_RELEVANT_CONTEXT], no
    answer, no citation and no confidence score; (2) a non-empty list with
    a passage whose [document_id] is empty is refused in the same way with
    reason code [CITATION_FAILURE]; in both cases the calls made are those
    of embedding and retrieval only, so no text generation call has been
    made. *)
Theorem post_retrieval_checkpoint (w : World) (q : QueryRequest.t)
  (t1 t2 : list Call) (query_embedding : list Q) (chunks : list DocumentChunk.t) :
  validate_query_request q = [] ->
  create_single_embedding w (QueryRequest.question q) = (t1, inr query_embedding) ->
  retrieve_for_query w query_embedding (QueryRequest.query_mode q)
    (QueryRequest.selected_text q) 5 = (t2, inr chunks) ->
  (chunks = [] ->
   exists resp,
     query_endpoint w q = ((t1 ++ t2)%list, inr resp)
     /\ Response.status resp = "insufficient_context"
     /\ Response.reason_code resp = Some "NO_RELEVANT_CONTEXT"
     /\ Response.explanation resp
        = Some "No relevant context found in the textbook to answer the question."
     /\ Response.answer resp = None
     /\ Response.citations resp = []
     /\ Response.retrieved_chunks resp = []
     /\ Response.confidence_score resp = None
     /\ Response.id resp = "ref_" ++ QueryRequest.id q
     /\ Response.query_id resp = QueryRequest.id q)
  /\ (chunks <> [] ->
      (exists c, In c chunks /\ DocumentChunk.document_id c = EmptyString) ->
      exists resp,
        query_endpoint w q = ((t1 ++ t2)%list, inr resp)
        /\ Response.status resp = "insufficient_context"
        /\ Response.reason_code resp = Some "CITATION_FAILURE"
        /\ Response.explanation resp
           = Some "Citations cannot be generated for the provided context."
        /\ Response.answer resp = None
        /\ Response.citations resp = []
        /\ Response.retrieved_chunks resp = []
        /\ Response.confidence_score resp = None
        /\ Response.id resp = "ref_" ++ QueryRequest.id q
        /\ Response.query_id resp = QueryRequest.id q)
  /\ no_generation (t1 ++ t2).
Proof.
  intros Hv H1 H2. split; [|split].
  - intros ->. eexists. split.
    + exact (path_gate_refuses w q t1 query_embedding Hv H1 t2 [] H2 _ _
               (gate_empty q)).
    + repeat split.
  - intros _ (c & Hin & Hd). eexists. split.
    + exact (path_gate_refuses w q t1 query_embedding Hv H1 t2 chunks H2 _ _
               (gate_unsourced q chunks c Hin Hd)).
    + repeat split.
  - intros prompt Hin. apply in_app_or in Hin as [Hin|Hin].
    + apply (f_equal trace) in H1. simpl in H1. rewrite <- H1 in Hin.
      apply embedding_trace in Hin. discriminate Hin.
    + apply (f_equal trace) in H2. simpl in H2. rewrite <- H2 in Hin.
      apply retrieval_trace in Hin. discriminate Hin.
Qed.

Lemma post_retrieval_checkpoint_witness :
  (exists resp,
     query_endpoint (with_hits [] world_ai) request_ai
     = ([CallEmbed "What is artificial intelligence?";
         CallSearch [1 # 10; 2 # 10; 3 # 10] 5], inr resp)
     /\ Response.status resp = "insufficient_context"
     /\ Response.reason_code resp = Some "NO_RELEVANT_CONTEXT"
     /\ Response.answer resp = None
     /\ Response.citations resp = [])
  /\ (exists resp,
        query_endpoint (with_hits [hit_ai; hit_unsourced] world_ai) request_ai
        = ([CallEmbed "What is artificial intelligence?";
            CallSearch [1 # 10; 2 # 10; 3 # 10] 5], inr resp)
        /\ Response.status resp = "insufficient_context"
        /\ Response.reason_code resp = Some "CITATION_FAILURE"
        /\ Response.answer resp = None
        /\ Response.citations resp = [])
  /\ no_generation [CallEmbed "What is artificial intelligence?";
                    CallSearch [1 # 10; 2 # 10; 3 # 10] 5].
Proof.
  split; [|split].
  - destruct (proj1 (post_retrieval_checkpoint (with_hits [] world_ai) request_ai
                       _ _ _ [] eq_refl eq_refl eq_refl) eq_refl)
      as (resp & E & Hs & Hr & _ & Ha & Hc & _).
    exists resp. repeat split; assumption.
  - destruct (proj1 (proj2 (post_retrieval_checkpoint
                              (with_hits [hit_ai; hit_unsourced] world_ai)
                              request_ai _ _ _ _ eq_refl eq_refl eq_refl)))
      as (resp & E & Hs & Hr & _ & Ha & Hc & _).
    + discriminate.
    + eexists. split; [right; left; reflexivity | reflexivity].
    + exists resp. repeat split; assumption.
  - apply (post_retrieval_checkpoint (with_hits [] world_ai) request_ai
             _ _ _ [] eq_refl eq_refl eq_refl).
Defined.

(** ** Citation failure overrides the generator *)

(** C5: citation construction is all-or-nothing.  If one built citation
    fails [validate_citation_format], [generate_citation_for_response]
    returns no citation at all and raises a [ValueError] naming an invalid
    citation; and on a request that reached citation construction with a
    generator result that is not a refusal (a success in particular), the
    endpoint returns the refusal with reason [CITATION_FAILURE] and no
    answer. *)
Theorem citation_failure_overrides (w : World) (q : QueryRequest.t)
  (t1 t2 t3 : list Call) (query_embedding : list Q)
  (chunks : list DocumentChunk.t) (g : GenerationResult.t) (bad : Citation.t) :
  validate_query_request q = [] ->
  create_single_embedding w (QueryRequest.question q) = (t1, inr query_embedding) ->
  retrieve_for_query w query_embedding (QueryRequest.query_mode q)
    (QueryRequest.selected_text q) 5 = (t2, inr chunks) ->
  check_refusal_conditions q chunks None = None ->
  generate_answer w q chunks = (t3, inr g) ->
  GenerationResult.status g <> "insufficient_context" ->
  In bad (format_citations chunks (QueryRequest.id q)) ->
  validate_citation_format bad = false ->
  exists c,
    In c (format_citations chunks (QueryRequest.id q))
    /\ validate_citation_format c = false
    /\ generate_citation_for_response chunks (QueryRequest.id q)
       = ([], inl (ValueError ("Invalid citation format for document "
                               ++ Citation.document_id c)))
    /\ query_endpoint w q
       = ((t1 ++ t2 ++ t3)%list,
          inr (format_refusal_response (QueryRequest.id q) "CITATION_FAILURE"
                 ("Citations could not be generated: "
                  ++ "Invalid citation format for document "
                  ++ Citation.document_id c)))
    /\ forall resp, result (query_endpoint w q) = inr resp ->
                    Response.answer resp = None
                    /\ Response.reason_code resp = Some "CITATION_FAILURE"
                    /\ Response.status resp = "insufficient_context"
                    /\ Response.citations resp = [].
Proof.
  intros Hv H1 H2 H3 H4 Hs Hin Hbad.
  assert (H5 : forallb validate_citation_format
                 (format_citations chunks (QueryRequest.id q)) = false).
  { apply not_true_is_false. rewrite forallb_forall. intros H.
    rewrite (H bad Hin) in Hbad. discriminate Hbad. }
  destruct (generate_citation_invalid _ _ H5) as (c & Hc & Hcv & E).
  pose proof (path_citation_fails w q t1 query_embedding Hv H1 t2 chunks H2 H3
                t3 g H4 Hs _ E) as P.
  exists c. repeat split; try assumption;
    rewrite P in H; injection H as <-; reflexivity.
Qed.

Lemma citation_failure_overrides_witness :
  exists c,
    validate_citation_format c = false
    /\ Citation.text_snippet c = " "
    /\ result (query_endpoint (with_hits [hit_ai; hit_blank] world_ai) request_ai)
       = inr (format_refusal_response "q1" "CITATION_FAILURE"
                "Citations could not be generated: Invalid citation format for document doc_1").
Proof.
  destruct (citation_failure_overrides
              (with_hits [hit_ai; hit_blank] world_ai) request_ai
              _ _ _ _ _
              (GenerationResult.mk
                 (Some "AI is the simulation of human intelligence.") "success"
                 (Some (17 # 20)) None None)
              (citation_of "q1" 1
                 (DocumentChunk.mk "18" "doc_1" " " 0%Z))
              eq_refl eq_refl eq_refl eq_refl eq_refl)
    as (c & Hin & Hv & _ & E & _).
  - discriminate.
  - right. left. reflexivity.
  - reflexivity.
  - exists c. split; [exact Hv|].
    destruct Hin as [<-|[<-|[]]]; [discriminate Hv|].
    split; [reflexivity|]. rewrite E. reflexivity.
Defined.

(** ** Exceptions at the endpoint boundary *)

(** The endpoint always returns a response, no exception leaves it; when a
    provider call made by the body of its [try] block fails (embedding,
    vector search), the response is the envelope of the refusal formatter:
    status [insufficient_context], reason code [ERROR], no answer, no
    citations, no confidence score, and an explanation made of a fixed
    prefix followed by the message of the exception. *)
Lemma handler_envelope (w : World) (q : QueryRequest.t) :
  (exists t resp, query_endpoint w q = (t, inr resp))
  /\ forall t msg,
       query_endpoint_try w q = (t, inl (ProviderError msg)) ->
       exists resp,
         query_endpoint w q = (t, inr resp)
         /\ Response.status resp = "insufficient_context"
         /\ Response.reason_code resp = Some "ERROR"
         /\ Response.explanation resp
            = Some ("An error occurred while processing your request: " ++ msg)
         /\ Response.answer resp = None
         /\ Response.citations resp = []
         /\ Response.confidence_score resp = None.
Proof.
  split.
  - destruct (endpoint_terminal w q) as (t & resp & E & _). eauto.
  - intros t msg E. eexists. split.
    + unfold query_endpoint. rewrite E, try_except_inl.
      simpl. rewrite app_nil_r. reflexivity.
    + repeat split.
Qed.

(** C6, on the code: the embedding provider fails on a valid request with
    the message "401 invalid api token sk-live-12345".  The exception
    reaches the [except Exception] handler of the endpoint, which answers
    with the envelope of the refusal formatter: the status of the response
    is [insufficient_context], not [error], and its explanation repeats the
    message of the exception word for word after a fixed prefix.  Nothing
    is raised to the caller. *)
Theorem handler_exposes_exception :
  query_endpoint_try
    (with_embedder (Raises "401 invalid api token sk-live-12345") world_ai)
    request_ai
  = ([CallEmbed "What is artificial intelligence?"],
     inl (ProviderError "401 invalid api token sk-live-12345"))
  /\ exists resp,
       query_endpoint
         (with_embedder (Raises "401 invalid api token sk-live-12345") world_ai)
         request_ai
       = ([CallEmbed "What is artificial intelligence?"], inr resp)
       /\ resp = Response.mk "ref_q1" "q1" None (Some "ERROR")
                   (Some "An error occurred while processing your request: 401 invalid api token sk-live-12345")
                   [] [] None 0 "insufficient_context"
       /\ Response.status resp = "insufficient_context"
       /\ Response.status resp <> "error"
       /\ Response.explanation resp
          = Some ("An error occurred while processing your request: "
                  ++ "401 invalid api token sk-live-12345").
Proof.
  split; [reflexivity|].
  eexists. split; [reflexivity|]. repeat split. discriminate.
Qed.

(** ** Rejected requests *)

(** An invalid request makes no provider call; the [HTTPException] raised
    for it is caught by the endpoint's own handler. *)
Lemma invalid_request_outcome (w : World) (q : QueryRequest.t) :
  validate_query_request q <> [] ->
  query_endpoint_try w q
  = ([], inl (HTTPException 400 "Invalid query parameters"
                (validate_query_request q)))
  /\ query_endpoint w q
     = ([], inr (handler_response w q
                   (HTTPException 400 "Invalid query parameters"
                      (validate_query_request q)))).
Proof.
  intros Hne. destruct (validate_query_request q) as [|e es] eqn:Hv;
    [congruence|].
  split.
  - unfold query_endpoint_try. rewrite Hv. reflexivity.
  - rewrite (path_invalid w q e es Hv). reflexivity.
Qed.

(** C7, on the code: the question "Hi" violates the length rule and the
    validator reports it; the endpoint raises the [HTTPException] with
    status 400 inside its [try] block, its [except Exception] handler
    catches it, and the caller receives an ordinary refusal envelope
    (status [insufficient_context], reason [ERROR]) instead of a client
    error.  No provider call is made. *)
Theorem validation_error_swallowed :
  validate_query_request request_hi
  = ["Question must be at least 3 characters long"]
  /\ query_endpoint_try world_ai request_hi
     = ([], inl (HTTPException 400 "Invalid query parameters"
                   ["Question must be at least 3 characters long"]))
  /\ query_endpoint world_ai request_hi
     = ([], inr (Response.mk "ref_q2" "q2" None (Some "ERROR")
                   (Some ("An error occurred while processing your request: "
                          ++ http_exception_str world_ai 400
                               "Invalid query parameters"
                               ["Question must be at least 3 characters long"]))
                   [] [] None 0 "insufficient_context"))
  /\ trace (query_endpoint world_ai request_hi) = [].
Proof. repeat split. Qed.

(** ** The pre-retrieval branch *)

Lemma gate_reasons (q : QueryRequest.t) (chunks : list DocumentChunk.t)
  (reason_code explanation : string) :
  check_refusal_conditions q chunks None = Some (reason_code, explanation) ->
  explanation = "No relevant context found in the textbook to answer the question."
  \/ explanation = "Citations cannot be generated for the provided context.".
Proof.
  unfold check_refusal_conditions.
  destruct (negb (validate_retrieved_context chunks q)).
  - intros [= _ <-]. auto.
  - simpl. destruct (_ && _); [|discriminate]. intros [= _ <-]. auto.
Qed.

Lemma terminal_not_pre_retrieval (w : World) (q : QueryRequest.t)
  (resp : Response.t) :
  Terminal w q resp -> resp <> pre_retrieval_refusal q.
Proof.
  unfold pre_retrieval_refusal, handler_response, format_refusal_response.
  intros [e|chunks rc ex Hgate|g Hg Hs|msg|chunks g _ _ _ _]; try discriminate.
  - destruct (gate_reasons q chunks rc ex Hgate) as [-> | ->]; discriminate.
  - destruct Hg as [expl Hin| |]; try discriminate Hs. simpl.
    repeat (destruct Hin as [<-|Hin]; [discriminate|]). destruct Hin.
Qed.

(** C10: a request the validator accepts passes
    [validate_generation_ability], and the endpoint never returns the
    refusal of its pre-retrieval branch. *)
Theorem valid_request_skips_pre_retrieval_refusal (q : QueryRequest.t) :
  validate_query_request q = [] ->
  validate_generation_ability q = ([], inr true)
  /\ forall w, result (query_endpoint w q)
               <> inr (format_refusal_response (QueryRequest.id q)
                         "NO_RELEVANT_CONTEXT"
                         "The query does not contain enough information to generate an answer.").
Proof.
  intros Hv. split; [exact (valid_request_can_generate q Hv)|].
  intros w. destruct (endpoint_terminal w q) as (t & resp & E & HT).
  rewrite E. simpl. intros [= ->].
  exact (terminal_not_pre_retrieval w q _ HT eq_refl).
Qed.

Lemma valid_request_skips_pre_retrieval_refusal_witness :
  validate_query_request request_selected = []
  /\ validate_generation_ability request_selected = ([], inr true).
Proof.
  split; [reflexivity|].
  apply (valid_request_skips_pre_retrieval_refusal request_selected).
  reflexivity.
Defined.

(** * Further properties *)

(** ** The refusal gate *)

Lemma grounding_loop_simple (answer : string) (chunks : list DocumentChunk.t) :
  validate_answer_grounding_loop answer chunks
  = validate_answer_grounding answer chunks.
Proof.
  unfold validate_answer_grounding_loop, validate_answer_grounding.
  destruct (_ || _); [reflexivity|].
  destruct (existsb _ _); reflexivity.
Qed.

(** X1: the grounding check of the validation service accepts every
    non-empty answer over a non-empty chunk list, whatever the answer and
    the chunks say: both exits of its word-overlap loop return [True]. *)
Theorem grounding_check_never_rejects (answer : string)
  (chunks : list DocumentChunk.t) :
  answer <> EmptyString -> chunks <> [] ->
  validate_answer_grounding_loop answer chunks = true.
Proof.
  intros Ha Hc. unfold validate_answer_grounding_loop.
  destruct answer; [congruence|]. destruct chunks; [congruence|].
  simpl. destruct (_ && _ || _); reflexivity.
Qed.

Lemma grounding_check_never_rejects_witness :
  validate_answer_grounding_loop "Bananas are yellow."
    [DocumentChunk.mk "1" "doc_1" "Robots have joints and actuators." 0%Z] = true.
Proof.
  apply grounding_check_never_rejects; discriminate.
Defined.

Lemma gate_table (q : QueryRequest.t) (chunks : list DocumentChunk.t)
  (answer : option string) :
  check_refusal_conditions q chunks answer
  = match chunks with
    | [] => Some ("NO_RELEVANT_CONTEXT",
                  "No relevant context found in the textbook to answer the question.")
    | _ :: _ =>
        if forallb (fun c => negb (PyStr.is_empty (DocumentChunk.document_id c)))
                   chunks
        then None
        else Some ("CITATION_FAILURE",
                   "Citations cannot be generated for the provided context.")
    end.
Proof.
  unfold check_refusal_conditions, validate_answer_grounding,
    _can_generate_citations.
  destruct chunks as [|c l]; [reflexivity|].
  cbn [validate_retrieved_context List.length Nat.ltb Nat.leb negb Nat.eqb orb].
  destruct answer as [[|a s]|]; cbn [PyStr.is_empty negb andb orb];
    destruct (forallb _ (c :: l)); reflexivity.
Qed.

(** X2: the decision of [check_refusal_conditions] does not depend on the
    answer it is given: it passes exactly when there is a chunk and every
    chunk has a non-empty [document_id]; without chunks it refuses
    with [NO_RELEVANT_CONTEXT], otherwise with [CITATION_FAILURE].  The
    refusal for an ungrounded answer is never returned. *)
Theorem gate_decision (q : QueryRequest.t) (chunks : list DocumentChunk.t)
  (answer : option string) :
  check_refusal_conditions q chunks answer = check_refusal_conditions q chunks None
  /\ (check_refusal_conditions q chunks answer = None
      <-> chunks <> []
          /\ Forall (fun c => DocumentChunk.document_id c <> EmptyString) chunks)
  /\ (forall reason_code explanation,
        check_refusal_conditions q chunks answer = Some (reason_code, explanation) ->
        (chunks = [] /\ reason_code = "NO_RELEVANT_CONTEXT")
        \/ (chunks <> [] /\ reason_code = "CITATION_FAILURE")).
Proof.
  rewrite !gate_table. split; [reflexivity|].
  destruct chunks as [|c l].
  - split; [split; [discriminate | intros [H _]; congruence]|].
    intros rc ex [= <- _]. auto.
  - destruct (forallb _ (c :: l)) eqn:E.
    + split; [|discriminate]. split; [|reflexivity].
      intros _. split; [discriminate|].
      apply Forall_forall. intros x Hx.
      rewrite forallb_forall in E. specialize (E x Hx).
      intros Hd. rewrite Hd in E. discriminate E.
    + split.
      * split; [discriminate|]. intros [_ H].
        apply not_true_iff_false in E. elim E.
        apply forallb_forall. intros x Hx.
        rewrite Forall_forall in H. specialize (H x Hx).
        destruct (DocumentChunk.document_id x); [congruence | reflexivity].
      * intros rc ex [= <- _]. right. split; [discriminate | reflexivity].
Qed.

(** X3: citations that pass [validate_citation_format] also pass the
    weaker [validate_citation_generation] of the validation service. *)
Theorem format_valid_implies_generation_valid (citations : list Citation.t) :
  forallb validate_citation_format citations = true ->
  validate_citation_generation citations = true.
Proof.
  unfold validate_citation_generation.
  induction citations as [|c l IH]; [reflexivity|].
  simpl. intros H. apply andb_true_iff in H as [Hc Hl].
  rewrite (IH Hl), andb_true_r.
  apply validate_citation_format_spec in Hc as (H1 & H2 & H3 & _).
  destruct (Citation.chapter c); [now elim H1|].
  destruct (Citation.section c); [now elim H2|].
  destruct (Citation.file_path c); [now elim H3|].
  reflexivity.
Qed.

Lemma format_valid_implies_generation_valid_witness :
  validate_citation_generation
    (format_citations
       [DocumentChunk.mk "17" "doc_ai_1" "Artificial intelligence" 0%Z] "q1")
  = true.
Proof.
  apply format_valid_implies_generation_valid. reflexivity.
Defined.

(** X4: the validator reports at most two errors: an invalid mode and a
    missing selected text are never reported together. *)
Theorem validator_error_bound (q : QueryRequest.t) :
  (List.length (validate_query_request q) <= 2)%nat
  /\ ~ (In err_mode (validate_query_request q)
        /\ In err_selected (validate_query_request q)).
Proof.
  destruct (validate_query_request_complete q) as (_ & Hm & Hs).
  assert (Hx : bad_mode q = true -> selected_required q = true -> False).
  { unfold bad_mode, selected_required, str_in. simpl.
    destruct (QueryRequest.query_mode q =? "selected-text") eqn:E.
    - apply String.eqb_eq in E. rewrite E. simpl. discriminate.
    - simpl. discriminate. }
  split.
  - rewrite validate_query_request_collects.
    destruct (question_too_short _), (bad_mode q) eqn:Eb,
      (selected_required q) eqn:Es; simpl; try lia;
      elim (Hx eq_refl eq_refl).
  - intros [H1 H2]. apply Hm in H1. apply Hs in H2. auto.
Qed.

(** ** Retrieved chunks *)

Lemma chunks_of_points_filter (points : list ScoredPoint.t) :
  chunks_of_points points = map chunk_of_point (filter has_text points).
Proof.
  induction points as [|p l IH]; [reflexivity|].
  simpl. unfold has_text at 1.
  destruct (PyStr.is_empty (payload_text_of p)); simpl; now rewrite IH.
Qed.

(** X5: the book-wide loop keeps exactly the hits that carry a text, in the
    order of the index: no returned chunk has an empty content, and there
    are never more chunks than hits. *)
Theorem book_wide_chunks (points : list ScoredPoint.t) :
  chunks_of_points points = map chunk_of_point (filter has_text points)
  /\ Forall (fun c => DocumentChunk.content c <> EmptyString)
            (chunks_of_points points)
  /\ (List.length (chunks_of_points points) <= List.length points)%nat.
Proof.
  split; [apply chunks_of_points_filter|].
  rewrite chunks_of_points_filter. split.
  - apply Forall_forall. intros c Hin.
    apply in_map_iff in Hin as (p & <- & Hp).
    apply filter_In in Hp as [_ Hp]. unfold has_text in Hp. simpl.
    intros E. rewrite E in Hp. discriminate.
  - rewrite length_map. apply filter_length_le.
Qed.

Lemma scrolled_text_found (p : ScoredPoint.t) :
  has_scrolled_text p = true -> payload_text_of p = scrolled_text_of p.
Proof.
  unfold has_scrolled_text, payload_text_of, scrolled_text_of, or_str, PyStr.truthy.
  destruct (ScoredPoint.payload_content p) as [[|a s]|];
    destruct (ScoredPoint.payload_text p) as [[|b t]|];
    destruct (ScoredPoint.payload_chunk_text p) as [[|c u]|];
    simpl; try reflexivity; discriminate.
Qed.

(** X6: [retrieve_by_document_id] never reads the key [page_content]: it
    returns the chunks that the book-wide loop builds from the hits with a
    text under [content], [text] or [chunk_text], and drops a hit whose
    only text is under [page_content]; a failure of the scroll is raised to
    the caller. *)
Theorem document_retrieval_ignores_page_content
  (scroll : string -> nat -> Outcome (list ScoredPoint.t))
  (document_id : string) (top_k : nat) :
  retrieve_by_document_id scroll document_id top_k
  = match scroll document_id top_k with
    | Returns points =>
        inr (chunks_of_points (filter has_scrolled_text points))
    | Raises msg => inl (ProviderError msg)
    end.
Proof.
  unfold retrieve_by_document_id.
  destruct (scroll document_id top_k) as [points|msg]; [|reflexivity].
  f_equal. induction points as [|p l IH]; [reflexivity|].
  simpl. unfold has_scrolled_text at 1.
  destruct (PyStr.is_empty (scrolled_text_of p)) eqn:E; simpl; [exact IH|].
  assert (Hp : has_scrolled_text p = true)
    by (unfold has_scrolled_text; now rewrite E).
  rewrite (scrolled_text_found p Hp), E, IH. reflexivity.
Qed.

Example page_content_only_hit :
  chunks_of_points
    [ScoredPoint.mk "7" None None None (Some "Robots walk.") (Some "doc_1") None]
  = [DocumentChunk.mk "7" "doc_1" "Robots walk." 0%Z]
  /\ retrieve_by_document_id
       (fun _ _ => Returns
          [ScoredPoint.mk "7" None None None (Some "Robots walk.") (Some "doc_1") None])
       "doc_1" 10
     = inr [].
Proof. split; reflexivity. Qed.



(** ** Generation *)

(** X8: [generate_rag_response] never raises and makes exactly one call;
    its result carries an answer exactly when its status is [success], a
    confidence score exactly then, and a reason code exactly otherwise. *)
Theorem rag_response_invariant (w : World) (svc : LLMService)
  (question context : string) :
  exists g,
    generate_rag_response w svc question context
    = ([CallGenerate (rag_prompt svc question context)], inr g)
    /\ In (GenerationResult.status g) ["success"; "insufficient_context"; "error"]
    /\ (GenerationResult.answer g <> None
        <-> GenerationResult.status g = "success")
    /\ (GenerationResult.confidence_score g <> None
        <-> GenerationResult.status g = "success")
    /\ (GenerationResult.reason_code g = None
        <-> GenerationResult.status g = "success").
Proof.
  destruct (generate_rag_response_shape w svc question context) as (g & E & Hg).
  exists g. split; [exact E|].
  destruct Hg as [expl _|a|msg]; simpl;
    repeat split; intros; try discriminate; try congruence; auto.
Qed.

Lemma rstrip_idempotent (s : string) : PyStr.rstrip (PyStr.rstrip s) = PyStr.rstrip s.
Proof.
  induction s as [|c s IH]; [reflexivity|].
  destruct (rstrip_cons c s) as [(E & _ & _) | E]; rewrite E; [reflexivity|].
  destruct (rstrip_cons c (PyStr.rstrip s)) as [(E' & Hc & Es) | E'].
  - rewrite IH in Es. simpl in E. rewrite Es, Hc in E. discriminate E.
  - rewrite E'. now rewrite IH.
Qed.

Lemma lstrip_head (s : string) :
  match PyStr.lstrip s with
  | EmptyString => True
  | String c _ => PyStr.is_space c = false
  end.
Proof.
  induction s as [|c s IH]; simpl; [exact I|].
  destruct (PyStr.is_space c) eqn:E; [exact IH | exact E].
Qed.

Lemma rstrip_head (c : ascii) (s : string) :
  PyStr.is_space c = false ->
  exists r, PyStr.rstrip (String c s) = String c r.
Proof.
  intros Hc. simpl. rewrite Hc. destruct (PyStr.rstrip s); eauto.
Qed.

Lemma strip_idempotent (s : string) : PyStr.strip (PyStr.strip s) = PyStr.strip s.
Proof.
  unfold PyStr.strip. pose proof (lstrip_head s) as H.
  destruct (PyStr.lstrip s) as [|c t]; [reflexivity|].
  destruct (rstrip_head c t H) as (r & E). rewrite E.
  simpl PyStr.lstrip. rewrite H, <- E. apply rstrip_idempotent.
Qed.

(** X9: an answer that the generator returns with status [success] is the
    model output without its surrounding whitespace: stripping it again
    changes nothing, and it contains none of the service's refusal
    phrases. *)
Theorem success_answer_is_clean (svc : LLMService) (text : string) :
  GenerationResult.status (interpret_text svc text) = "success" ->
  GenerationResult.answer (interpret_text svc text) = Some (PyStr.strip text)
  /\ PyStr.strip (PyStr.strip text) = PyStr.strip text
  /\ indicates_refusal svc (PyStr.strip text) = false.
Proof.
  unfold interpret_text. destruct (PyStr.is_empty text); simpl;
    [discriminate|].
  destruct (indicates_refusal svc (PyStr.strip text)); simpl;
    [discriminate|].
  intros _. repeat split. apply strip_idempotent.
Qed.

Lemma success_answer_is_clean_witness :
  GenerationResult.answer
    (interpret_text GeminiLLMService "  Robots have joints.  ")
  = Some "Robots have joints.".
Proof.
  apply (success_answer_is_clean GeminiLLMService "  Robots have joints.  ").
  reflexivity.
Defined.

(** X10: [generate_text] makes one call and returns a non-empty text (the
    placeholder when the model returns nothing); unlike
    [generate_rag_response] it lets a failure of the provider escape.  With
    no context the prompt is sent unchanged. *)
Theorem generate_text_behaviour (w : World) (prompt : string)
  (context : option string) :
  (exists full_prompt, trace (generate_text w prompt context)
                       = [CallGenerate full_prompt])
  /\ (forall s, result (generate_text w prompt context) = inr s ->
                s <> EmptyString)
  /\ (PyStr.falsy context = true ->
      generate_text w prompt context
      = match generate_content w prompt with
        | Returns text =>
            ([CallGenerate prompt],
             inr (if PyStr.is_empty text then "No response generated" else text))
        | Raises msg => ([CallGenerate prompt], inl (ProviderError msg))
        end).
Proof.
  unfold generate_text, call, bind, trace, result.
  repeat split.
  - destruct (generate_content w _); simpl; eauto.
  - intros s. destruct (generate_content w _) as [text|msg]; simpl;
      [|discriminate].
    intros [= <-]. destruct text; discriminate.
  - intros Hf. unfold PyStr.truthy. rewrite Hf. simpl.
    destruct (generate_content w prompt) as [[|a t]|msg]; reflexivity.
Qed.

Lemma generate_text_behaviour_witness :
  generate_text (with_model (Raises "quota exceeded") world_ai) "Hello" None
  = ([CallGenerate "Hello"], inl (ProviderError "quota exceeded")).
Proof.
  apply (generate_text_behaviour (with_model (Raises "quota exceeded") world_ai)
           "Hello" None).
  reflexivity.
Defined.

(** ** Strings: lengths, prefixes and numerals *)

Lemma str_length_app (a b : string) :
  String.length (a ++ b) = (String.length a + String.length b)%nat.
Proof. induction a as [|c a IH]; simpl; [reflexivity | now rewrite IH]. Qed.

Lemma str_app_inv_head (a b c : string) : a ++ b = a ++ c -> b = c.
Proof. induction a as [|x a IH]; simpl; [auto | intros [= H]; auto]. Qed.

Lemma str_app_assoc (a b c : string) : (a ++ b) ++ c = a ++ b ++ c.
Proof. induction a as [|x a IH]; simpl; [reflexivity | now rewrite IH]. Qed.

Lemma str_app_empty_r (a : string) : a ++ EmptyString = a.
Proof. induction a as [|x a IH]; simpl; [reflexivity | now rewrite IH]. Qed.

Lemma of_nat_inj (n m : nat) : PyStr.of_nat n = PyStr.of_nat m -> n = m.
Proof.
  unfold PyStr.of_nat. intros H.
  apply (f_equal NilEmpty.uint_of_string) in H.
  rewrite !NilEmpty.usu in H. injection H as H.
  apply (f_equal Nat.of_uint) in H. now rewrite !Unsigned.of_to in H.
Qed.

Lemma take_length (n : nat) (s : string) :
  String.length (PyStr.take n s) = Nat.min n (String.length s).
Proof.
  revert s. induction n as [|n IH]; intros [|c s]; simpl; try reflexivity.
  now rewrite IH.
Qed.

Lemma take_all (n : nat) (s : string) :
  (String.length s <= n)%nat -> PyStr.take n s = s.
Proof.
  revert s. induction n as [|n IH]; intros [|c s]; simpl; intros H;
    try reflexivity; [lia|].
  rewrite IH by lia. reflexivity.
Qed.

Lemma take_app (n : nat) (s x : string) :
  (n <= String.length s)%nat -> PyStr.take n (s ++ x) = PyStr.take n s.
Proof.
  revert s. induction n as [|n IH]; intros [|c s]; simpl; intros H;
    try reflexivity; [lia|].
  rewrite IH by lia. reflexivity.
Qed.

Lemma take_drop (n : nat) (s : string) :
  PyStr.take n s ++ PyText.drop n s = s.
Proof.
  revert s. induction n as [|n IH]; intros [|c s]; simpl; try reflexivity.
  now rewrite IH.
Qed.

Lemma drop_length (n : nat) (s : string) :
  String.length (PyText.drop n s) = (String.length s - n)%nat.
Proof.
  revert s. induction n as [|n IH]; intros [|c s]; simpl; try reflexivity.
  apply IH.
Qed.

Lemma drop_drop (n m : nat) (s : string) :
  PyText.drop n (PyText.drop m s) = PyText.drop (m + n) s.
Proof.
  revert s. induction m as [|m IH]; intros s; [reflexivity|].
  destruct s as [|c s]; simpl; [now destruct n | apply IH].
Qed.

Lemma drop_all (n : nat) (s : string) :
  (String.length s <= n)%nat -> PyText.drop n s = EmptyString.
Proof.
  revert s. induction n as [|n IH]; intros [|c s]; simpl; intros H;
    try reflexivity; [lia|].
  apply IH. lia.
Qed.

(** ** Built citations *)

Section BuiltCitations.

Variable response_id : string.

Lemma citation_id_inj : Injective (citation_id response_id).
Proof.
  intros i j H. unfold citation_id in H.
  apply (str_app_inv_head "cit_") in H.
  apply str_app_inv_head in H. apply (str_app_inv_head "_") in H.
  now apply of_nat_inj.
Qed.

Lemma format_citations_from_nth (chunks : list DocumentChunk.t) (i k : nat) :
  nth_error (format_citations_from i chunks response_id) k
  = option_map (citation_of response_id (i + k)) (nth_error chunks k).
Proof.
  revert i k. induction chunks as [|c l IH]; intros i k.
  - now destruct k.
  - destruct k as [|k]; simpl.
    + now rewrite Nat.add_0_r.
    + rewrite IH. now rewrite Nat.add_succ_r.
Qed.

Lemma format_citations_from_ids (chunks : list DocumentChunk.t) (i : nat) :
  map Citation.id (format_citations_from i chunks response_id)
  = map (citation_id response_id) (seq i (List.length chunks)).
Proof.
  revert i. induction chunks as [|c l IH]; intros i; simpl; [reflexivity|].
  now rewrite IH.
Qed.

(** X11: the citations follow the chunks one to one and in order: the
    citation at position [i] is built from the chunk at position [i], is
    named [cit_<response id>_<i>], and takes its document id and its file
    path from the chunk's [document_id]. *)
Theorem citations_follow_chunks (chunks : list DocumentChunk.t) (i : nat)
  (chunk : DocumentChunk.t) :
  nth_error chunks i = Some chunk ->
  exists c,
    nth_error (format_citations chunks response_id) i = Some c
    /\ Citation.id c = "cit_" ++ response_id ++ "_" ++ PyStr.of_nat i
    /\ Citation.response_id c = response_id
    /\ Citation.document_id c = DocumentChunk.document_id chunk
    /\ Citation.file_path c = DocumentChunk.document_id chunk
    /\ Citation.text_snippet c = snippet_of (DocumentChunk.content chunk)
    /\ Citation.relevance_score c = 3 # 4.
Proof.
  intros H. exists (citation_of response_id i chunk).
  unfold format_citations. rewrite format_citations_from_nth, H.
  repeat split.
Qed.

(** X12: within one response no two citations share an identifier. *)
Theorem citation_ids_distinct (chunks : list DocumentChunk.t) :
  NoDup (map Citation.id (format_citations chunks response_id)).
Proof.
  unfold format_citations. rewrite format_citations_from_ids.
  apply Injective_map_NoDup; [exact citation_id_inj | apply seq_NoDup].
Qed.

End BuiltCitations.

Lemma citations_follow_chunks_witness :
  exists c,
    nth_error
      (format_citations
         [DocumentChunk.mk "17" "doc_ai_1" "Artificial intelligence" 0%Z;
          DocumentChunk.mk "18" "ch2_sec1" "Robots" 1%Z] "q1") 1 = Some c
    /\ Citation.id c = "cit_q1_1"
    /\ Citation.document_id c = "ch2_sec1".
Proof.
  destruct (citations_follow_chunks "q1"
              [DocumentChunk.mk "17" "doc_ai_1" "Artificial intelligence" 0%Z;
               DocumentChunk.mk "18" "ch2_sec1" "Robots" 1%Z] 1
              (DocumentChunk.mk "18" "ch2_sec1" "Robots" 1%Z) eq_refl)
    as (c & H1 & H2 & _ & H3 & _).
  exists c. auto.
Defined.

(** X13: a text snippet has at most 203 characters, keeps the first 200
    characters of the content, and is unchanged by a second truncation; the
    content that ingestion stores in the index is such a snippet, so the
    citation of a retrieved chunk quotes the stored content as it is. *)
Theorem snippet_bounded_and_stable (chunk : DocumentChunk.t) :
  (String.length (snippet_of (DocumentChunk.content chunk)) <= 203)%nat
  /\ PyStr.take 200 (snippet_of (DocumentChunk.content chunk))
     = PyStr.take 200 (DocumentChunk.content chunk)
  /\ snippet_of (snippet_of (DocumentChunk.content chunk))
     = snippet_of (DocumentChunk.content chunk)
  /\ stored_content chunk = snippet_of (DocumentChunk.content chunk)
  /\ snippet_of (stored_content chunk) = stored_content chunk.
Proof.
  set (content := DocumentChunk.content chunk).
  assert (Hlen : (String.length (snippet_of content) <= 203)%nat).
  { unfold snippet_of. destruct (200 <? String.length content)%nat eqn:E.
    - rewrite str_length_app, take_length.
      change (String.length "...") with 3%nat. lia.
    - apply Nat.ltb_ge in E. lia. }
  assert (Hstable : snippet_of (snippet_of content) = snippet_of content).
  { unfold snippet_of at 2 3.
    destruct (200 <? String.length content)%nat eqn:E.
    - apply Nat.ltb_lt in E. unfold snippet_of.
      assert (L : String.length (PyStr.take 200 content) = 200%nat)
        by (rewrite take_length; lia).
      replace (200 <? String.length (PyStr.take 200 content ++ "..."))%nat
        with true.
      + rewrite take_app by lia. rewrite take_all by lia. reflexivity.
      + symmetry. apply Nat.ltb_lt. rewrite str_length_app, L.
        change (String.length "...") with 3%nat. lia.
    - unfold snippet_of. rewrite E. reflexivity. }
  assert (Hstored : stored_content chunk = snippet_of content) by reflexivity.
  repeat split.
  - exact Hlen.
  - unfold snippet_of. destruct (200 <? String.length content)%nat eqn:E;
      [|reflexivity].
    apply Nat.ltb_lt in E.
    rewrite take_app by (rewrite take_length; lia).
    apply take_all. rewrite take_length. lia.
  - exact Hstable.
  - rewrite Hstored. exact Hstable.
Qed.

(** ** Chapter and section labels *)




Lemma split_nonempty (sep : ascii) (s : string) : PyStr.split sep s <> [].
Proof.
  induction s as [|c s IH]; simpl; [discriminate|].
  destruct (Ascii.eqb c sep); [discriminate|].
  destruct (PyStr.split sep s); [contradiction | discriminate].
Qed.


Lemma chapter_of_leading_underscore (rest : string) :
  PyStr.re_chapter (PyStr.lower (String underscore rest)) = None ->
  _extract_chapter_from_path (String underscore rest) = EmptyString.
Proof.
  intros H. unfold _extract_chapter_from_path. rewrite H.
  change (PyStr.split underscore (String underscore rest))
    with (EmptyString :: PyStr.split underscore rest).
  pose proof (split_nonempty underscore rest) as Hn.
  destruct (PyStr.split underscore rest); [contradiction | reflexivity].
Qed.

(** X15: a passage whose document id starts with an underscore and holds
    no chapter token passes the post-retrieval gate (its id is not empty)
    but gets an empty chapter label, so citation generation raises for any
    chunk list that contains it. *)
Theorem leading_underscore_defeats_citation (chunks : list DocumentChunk.t)
  (response_id : string) (chunk : DocumentChunk.t) (rest : string) :
  In chunk chunks ->
  DocumentChunk.document_id chunk = String underscore rest ->
  PyStr.re_chapter (PyStr.lower (String underscore rest)) = None ->
  _can_generate_citations [chunk] = true
  /\ _extract_chapter_from_path (DocumentChunk.document_id chunk) = EmptyString
  /\ exists document_id,
       generate_citation_for_response chunks response_id
       = ([], inl (ValueError ("Invalid citation format for document "
                               ++ document_id))).
Proof.
  intros Hin Hd Hre.
  assert (Hch : _extract_chapter_from_path (DocumentChunk.document_id chunk)
                = EmptyString)
    by (rewrite Hd; exact (chapter_of_leading_underscore rest Hre)).
  split; [unfold _can_generate_citations; simpl; now rewrite Hd|].
  split; [exact Hch|].
  apply In_nth_error in Hin as (i & Hi).
  assert (Hbad : forallb validate_citation_format
                   (format_citations chunks response_id) = false).
  { apply not_true_is_false. rewrite forallb_forall. intros H.
    assert (Hc : In (citation_of response_id i chunk)
                    (format_citations chunks response_id)).
    { apply (nth_error_In _ i). unfold format_citations.
      rewrite format_citations_from_nth, Hi. reflexivity. }
    specialize (H _ Hc).
    unfold validate_citation_format, required_fields, citation_of in H.
    cbn [Citation.chapter existsb] in H. rewrite Hch in H.
    discriminate H. }
  destruct (generate_citation_invalid response_id chunks Hbad)
    as (c & _ & _ & E).
  exists (Citation.document_id c). exact E.
Qed.

Lemma leading_underscore_defeats_citation_witness :
  exists document_id,
    generate_citation_for_response
      [DocumentChunk.mk "17" "doc_ai_1" "Artificial intelligence" 0%Z;
       DocumentChunk.mk "18" "_draft" "Robots" 1%Z] "q1"
    = ([], inl (ValueError ("Invalid citation format for document "
                            ++ document_id))).
Proof.
  apply (leading_underscore_defeats_citation
           [DocumentChunk.mk "17" "doc_ai_1" "Artificial intelligence" 0%Z;
            DocumentChunk.mk "18" "_draft" "Robots" 1%Z] "q1"
           (DocumentChunk.mk "18" "_draft" "Robots" 1%Z) "draft").
  - right. left. reflexivity.
  - reflexivity.
  - reflexivity.
Defined.

Lemma hex_lower_char (c : ascii) : is_hex c = true -> PyStr.lower_char c = c.
Proof. destruct c as [[] [] [] [] [] [] [] []]; try reflexivity; discriminate. Qed.

Lemma hex_not_underscore (c : ascii) :
  is_hex c = true -> Ascii.eqb c underscore = false.
Proof. destruct c as [[] [] [] [] [] [] [] []]; try reflexivity; discriminate. Qed.

Lemma hex_not_h (c : ascii) : is_hex c = true -> Ascii.eqb "h"%char c = false.
Proof. destruct c as [[] [] [] [] [] [] [] []]; try reflexivity; discriminate. Qed.

Lemma hex_not_s (c : ascii) : is_hex c = true -> Ascii.eqb "s"%char c = false.
Proof. destruct c as [[] [] [] [] [] [] [] []]; try reflexivity; discriminate. Qed.

Lemma hex_lower (s : string) : all_chars is_hex s = true -> PyStr.lower s = s.
Proof.
  induction s as [|c s IH]; simpl; [reflexivity|].
  intros H. apply andb_true_iff in H as [Hc Hs].
  now rewrite (hex_lower_char c Hc), (IH Hs).
Qed.

Lemma hex_split (s : string) :
  all_chars is_hex s = true -> PyStr.split underscore s = [s].
Proof.
  induction s as [|c s IH]; simpl; [reflexivity|].
  intros H. apply andb_true_iff in H as [Hc Hs].
  now rewrite (hex_not_underscore c Hc), (IH Hs).
Qed.

Lemma hex_no_chapter (s : string) :
  all_chars is_hex s = true -> PyStr.re_chapter s = None.
Proof.
  unfold PyStr.re_chapter.
  induction s as [|c s IH]; [reflexivity|].
  intros H. pose proof H as H'. simpl in H'.
  apply andb_true_iff in H' as [Hc Hs].
  cbn [PyStr.re_search]. rewrite (IH Hs).
  unfold PyStr.keyword_then, PyStr.first_of.
  cbn [PyStr.drop_prefix].
  destruct (Ascii.eqb "c"%char c); [|reflexivity].
  destruct s as [|d s]; [reflexivity|].
  simpl in Hs. apply andb_true_iff in Hs as [Hd _].
  cbn [PyStr.drop_prefix]. rewrite (hex_not_h d Hd). reflexivity.
Qed.

Lemma hex_no_section (s : string) :
  all_chars is_hex s = true -> PyStr.re_section s = None.
Proof.
  unfold PyStr.re_section.
  induction s as [|c s IH]; [reflexivity|].
  intros H. simpl in H. apply andb_true_iff in H as [Hc Hs].
  cbn [PyStr.re_search]. rewrite (IH Hs).
  unfold PyStr.keyword_then, PyStr.first_of.
  cbn [PyStr.drop_prefix]. rewrite (hex_not_s c Hc). reflexivity.
Qed.

(** X16: a document id made of lower-case hexadecimal digits only (the
    ids that ingestion derives from a SHA-256 digest) is labelled
    [Unknown Chapter] and [General]: no citation of an ingested document
    names a chapter or a section. *)
Theorem hex_ids_have_default_labels (document_id : string) :
  all_chars is_hex document_id = true ->
  _extract_chapter_from_path document_id = "Unknown Chapter"
  /\ _extract_section_from_path document_id = "General".
Proof.
  intros H.
  unfold _extract_chapter_from_path, _extract_section_from_path.
  rewrite (hex_lower _ H), (hex_no_chapter _ H), (hex_no_section _ H),
    (hex_split _ H).
  split; reflexivity.
Qed.

Lemma hex_ids_have_default_labels_witness :
  _extract_chapter_from_path "9f86d081884c7d65" = "Unknown Chapter"
  /\ _extract_section_from_path "9f86d081884c7d65" = "General".
Proof.
  apply hex_ids_have_default_labels. reflexivity.
Defined.

(** ** The response envelope *)

Lemma gate_reason_codes (q : QueryRequest.t) (chunks : list DocumentChunk.t)
  (answer : option string) (reason_code explanation : string) :
  check_refusal_conditions q chunks answer = Some (reason_code, explanation) ->
  reason_code = "NO_RELEVANT_CONTEXT" \/ reason_code = "CITATION_FAILURE".
Proof.
  rewrite gate_table. destruct chunks as [|c l].
  - intros [= <- _]. auto.
  - destruct (forallb _ _); [discriminate|]. intros [= <- _]. auto.
Qed.

(** X17: every response of the endpoint echoes the request id and has one
    of the three statuses.  A response with status [insufficient_context]
    is named [ref_<id>], reports no retrieved chunk and a generation time
    of 0, and carries an explanation and one of the reason codes [ERROR],
    [NO_RELEVANT_CONTEXT], [CITATION_FAILURE]; any other response is named
    [resp_<id>], carries neither reason code nor explanation, and lists as
    many retrieved chunks as citations. *)
Theorem response_envelope (w : World) (q : QueryRequest.t)
  (t : list Call) (resp : Response.t) :
  query_endpoint w q = (t, inr resp) ->
  Response.query_id resp = QueryRequest.id q
  /\ In (Response.status resp) ["success"; "insufficient_context"; "error"]
  /\ (Response.status resp = "insufficient_context" ->
      Response.id resp = "ref_" ++ QueryRequest.id q
      /\ Response.retrieved_chunks resp = []
      /\ Response.generation_time_ms resp = 0
      /\ exists reason_code explanation,
           Response.reason_code resp = Some reason_code
           /\ Response.explanation resp = Some explanation
           /\ In reason_code ["ERROR"; "NO_RELEVANT_CONTEXT"; "CITATION_FAILURE"])
  /\ (Response.status resp <> "insufficient_context" ->
      Response.id resp = "resp_" ++ QueryRequest.id q
      /\ Response.reason_code resp = None
      /\ Response.explanation resp = None
      /\ List.length (Response.retrieved_chunks resp)
         = List.length (Response.citations resp)).
Proof.
  intros E.
  destruct (endpoint_terminal w q) as (t' & resp' & E' & HT).
  rewrite E in E'. injection E' as <- <-.
  destruct HT as [e|chunks rc ex Hgate|g Hg Hs|msg|chunks g _ Hg Hns _].
  - simpl. repeat split; auto; try contradiction.
    eexists _, _. repeat split. simpl. auto.
  - simpl. repeat split; auto; try contradiction.
    eexists _, _. repeat split.
    destruct (gate_reason_codes q chunks None rc ex Hgate) as [-> | ->];
      simpl; auto.
  - simpl. repeat split; auto; try contradiction.
    destruct Hg as [expl _| |]; try discriminate Hs.
    eexists _, _. repeat split. simpl. auto.
  - simpl. repeat split; auto; try contradiction.
    eexists _, _. repeat split. simpl. auto.
  - simpl. repeat split; auto; try contradiction.
    + destruct Hg as [expl _| |]; simpl; auto.
    + now rewrite length_map, format_citations_length.
Qed.

Lemma response_envelope_witness :
  exists t resp,
    query_endpoint world_ai request_ai = (t, inr resp)
    /\ Response.query_id resp = "q1"
    /\ In (Response.status resp) ["success"; "insufficient_context"; "error"].
Proof.
  pose proof (response_envelope world_ai request_ai _ _ eq_refl)
    as (H1 & H2 & _).
  eexists _, _. split; [reflexivity|]. split; [exact H1 | exact H2].
Defined.

(** ** The calls of a request *)

Lemma valid_request_embeds (w : World) (q : QueryRequest.t) :
  validate_query_request q = [] ->
  create_single_embedding w (QueryRequest.question q)
  = call (CallEmbed (QueryRequest.question q)) (embed w (QueryRequest.question q)).
Proof.
  intros Hv. unfold create_single_embedding.
  destruct (valid_request_rules q Hv) as (Hq & _).
  unfold question_too_short in Hq. apply orb_false_iff in Hq as [Hq _].
  now rewrite Hq.
Qed.

Lemma retrieval_calls (w : World) (emb : list Q) (mode : string)
  (sel : option string) (k : nat) :
  trace (retrieve_for_query w emb mode sel k) = []
  \/ trace (retrieve_for_query w emb mode sel k) = [CallSearch emb k].
Proof.
  unfold retrieve_for_query. destruct (_ && _); [left; reflexivity|].
  right. apply retrieve_book_wide_trace.
Qed.

Lemma generation_calls (w : World) (q : QueryRequest.t)
  (chunks : list DocumentChunk.t) :
  trace (generate_answer w q chunks) = []
  \/ exists prompt, trace (generate_answer w q chunks) = [CallGenerate prompt].
Proof.
  unfold generate_answer. destruct chunks as [|c l]; [left; reflexivity|].
  right. destruct (_ && _);
    match goal with
    | |- context [generate_rag_response ?w ?s ?a ?b] =>
        destruct (generate_rag_response_shape w s a b) as (g & E & _)
    end; rewrite E; simpl; eauto.
Qed.

(** X18: the endpoint calls each provider at most once and in the order of
    the pipeline: the embedding of the question first, then at most one
    search with limit 5, then at most one text generation; an invalid
    request makes no call. *)
Theorem calls_in_pipeline_order (w : World) (q : QueryRequest.t) :
  pipeline_order (trace (query_endpoint w q)) = true
  /\ (forall text, In (CallEmbed text) (trace (query_endpoint w q)) ->
                   text = QueryRequest.question q)
  /\ (validate_query_request q <> [] -> trace (query_endpoint w q) = []).
Proof.
  split; [|split].
  2:{ intros text Hin.
      destruct (endpoint_run w q) as (t & resp & E & _ & Hcalls).
      rewrite E in Hin. simpl in Hin.
      destruct (Hcalls _ Hin) as [H|[(emb & H)|(prompt & H)]].
      - now injection H.
      - apply retrieval_trace in H. discriminate H.
      - discriminate H. }
  2:{ intros Hne. destruct (validate_query_request q) as [|e es] eqn:Hv;
        [congruence|].
      now rewrite (path_invalid w q e es Hv). }
  destruct (validate_query_request q) as [|e es] eqn:Hv.
  2:{ now rewrite (path_invalid w q e es Hv). }
  pose proof (valid_request_embeds w q Hv) as He.
  destruct (create_single_embedding w (QueryRequest.question q))
    as [t1 [e|emb]] eqn:H1.
  { rewrite (path_embed_fails w q t1 e Hv H1). simpl.
    unfold call in He.
    destruct (embed w _); [discriminate He | injection He as -> _; reflexivity]. }
  assert (Ht1 : t1 = [CallEmbed (QueryRequest.question q)]).
  { unfold call in He.
    destruct (embed w _); [injection He as -> _; reflexivity | discriminate He]. }
  pose proof (retrieval_calls w emb (QueryRequest.query_mode q)
                (QueryRequest.selected_text q) 5) as Hr.
  destruct (retrieve_for_query w emb (QueryRequest.query_mode q)
              (QueryRequest.selected_text q) 5) as [t2 [e|chunks]] eqn:H2.
  { rewrite (path_retrieve_fails w q t1 emb Hv H1 t2 e H2). subst t1.
    simpl in Hr. destruct Hr as [-> | ->]; reflexivity. }
  simpl in Hr.
  destruct (check_refusal_conditions q chunks None) as [[rc ex]|] eqn:H3.
  { rewrite (path_gate_refuses w q t1 emb Hv H1 t2 chunks H2 rc ex H3).
    subst t1. destruct Hr as [-> | ->]; reflexivity. }
  pose proof (generation_calls w q chunks) as Hg.
  destruct (generate_answer_shape w q chunks) as (t3 & g & H4 & _).
  rewrite H4 in Hg. simpl in Hg.
  assert (Hall : pipeline_order (t1 ++ t2 ++ t3) = true).
  { subst t1. destruct Hr as [-> | ->], Hg as [-> | (p & ->)]; reflexivity. }
  destruct (String.eqb_spec (GenerationResult.status g) "insufficient_context")
    as [Hs|Hs].
  { now rewrite (path_generation_refuses w q t1 emb Hv H1 t2 chunks H2 H3 t3 g H4 Hs). }
  destruct (forallb validate_citation_format
              (format_citations chunks (QueryRequest.id q))) eqn:H5.
  - now rewrite (path_answer w q t1 emb Hv H1 t2 chunks H2 H3 t3 g H4 Hs H5).
  - destruct (generate_citation_invalid _ _ H5) as (c & _ & _ & E).
    now rewrite (path_citation_fails w q t1 emb Hv H1 t2 chunks H2 H3 t3 g H4 Hs _ E).
Qed.

Lemma calls_in_pipeline_order_witness :
  trace (query_endpoint world_ai request_hi) = [].
Proof.
  apply (calls_in_pipeline_order world_ai request_hi). discriminate.
Defined.

(** ** End-to-end outcomes *)

(** X19: a valid book-wide request succeeds end to end: when the question
    is embedded, the index returns hits, the kept chunks all carry a
    document id and yield valid citations, and the model returns a
    non-empty text without refusal phrase, the endpoint makes the three
    calls and returns status [success] with the stripped model text as
    answer, the confidence 0.85, one citation per chunk and the chunk ids. *)
Theorem book_wide_success (w : World) (q : QueryRequest.t)
  (query_embedding : list Q) (points : list ScoredPoint.t) (text : string) :
  validate_query_request q = [] ->
  QueryRequest.query_mode q = "book-wide" ->
  embed w (QueryRequest.question q) = Returns query_embedding ->
  query_points w query_embedding 5 = Returns points ->
  check_refusal_conditions q (chunks_of_points points) None = None ->
  forallb validate_citation_format
    (format_citations (chunks_of_points points) (QueryRequest.id q)) = true ->
  generate_content w
    (rag_prompt GeminiLLMService (QueryRequest.question q)
       (_build_context (chunks_of_points points))) = Returns text ->
  text <> EmptyString ->
  indicates_refusal GeminiLLMService text = false ->
  query_endpoint w q
  = ([CallEmbed (QueryRequest.question q);
      CallSearch query_embedding 5;
      CallGenerate (rag_prompt GeminiLLMService (QueryRequest.question q)
                      (_build_context (chunks_of_points points)))],
     inr (Response.mk ("resp_" ++ QueryRequest.id q) (QueryRequest.id q)
            (Some (PyStr.strip text)) None None
            (format_citations (chunks_of_points points) (QueryRequest.id q))
            (map DocumentChunk.id (chunks_of_points points))
            (Some (17 # 20)) (elapsed_ms w) "success")).
Proof.
  intros Hv Hm He Hp Hgate Hcit Hgen Hne Hnr.
  assert (H1 : create_single_embedding w (QueryRequest.question q)
               = ([CallEmbed (QueryRequest.question q)], inr query_embedding)).
  { rewrite (valid_request_embeds w q Hv). unfold call. now rewrite He. }
  assert (H2 : retrieve_for_query w query_embedding (QueryRequest.query_mode q)
                 (QueryRequest.selected_text q) 5
               = ([CallSearch query_embedding 5], inr (chunks_of_points points))).
  { unfold retrieve_for_query. rewrite Hm. simpl.
    unfold _retrieve_book_wide, call, bind. now rewrite Hp. }
  assert (H4 : generate_answer w q (chunks_of_points points)
               = ([CallGenerate (rag_prompt GeminiLLMService (QueryRequest.question q)
                                   (_build_context (chunks_of_points points)))],
                  inr (GenerationResult.mk (Some (PyStr.strip text)) "success"
                         (Some (17 # 20)) None None))).
  { unfold generate_answer.
    pose proof (gate_passes_nonempty q _ Hgate) as Hc.
    destruct (chunks_of_points points) as [|c l] eqn:Ec; [congruence|].
    rewrite Hm. simpl andb. cbv iota.
    rewrite (generate_rag_response_returns w GeminiLLMService _ _ text Hgen).
    unfold interpret_text. rewrite indicates_refusal_strip, Hnr.
    destruct text; [congruence | reflexivity]. }
  assert (Hs : GenerationResult.status
                 (GenerationResult.mk (Some (PyStr.strip text)) "success"
                    (Some (17 # 20)) None None) <> "insufficient_context")
    by discriminate.
  exact (path_answer w q _ query_embedding Hv H1 _ _ H2 Hgate _ _ H4 Hs Hcit).
Qed.

Lemma book_wide_success_witness :
  exists resp,
    query_endpoint world_ai request_ai
    = ([CallEmbed "What is artificial intelligence?";
        CallSearch [1 # 10; 2 # 10; 3 # 10] 5;
        CallGenerate
          (rag_prompt GeminiLLMService "What is artificial intelligence?"
             (_build_context (chunks_of_points [hit_ai])))],
       inr resp)
    /\ Response.status resp = "success"
    /\ Response.answer resp = Some "AI is the simulation of human intelligence.".
Proof.
  eexists. split.
  - apply (book_wide_success world_ai request_ai [1 # 10; 2 # 10; 3 # 10]
             [hit_ai] "AI is the simulation of human intelligence.");
      try reflexivity. discriminate.
  - split; reflexivity.
Defined.










(** ** The debug generation route and the context budget *)

(** X22: the debug route [test_generation] always answers with
    [success: True]: the generation service never raises, so the branch
    that reports a failure is unreachable, and a failing model shows up
    only as status [error] inside the result. *)
Theorem debug_generation_always_succeeds (w : World)
  (format_exc : PyExc -> string) (q : QueryRequest.t) :
  exists prompt g,
    test_generation w format_exc q
    = ([CallGenerate prompt], inr (DebugSuccess g))
    /\ (forall msg, generate_content w prompt = Raises msg ->
                    GenerationResult.status g = "error"
                    /\ GenerationResult.answer g = None).
Proof.
  unfold test_generation, generate_answer, mock_chunks.
  destruct (_ && _);
    match goal with
    | |- context [generate_rag_response ?w ?s ?a ?b] =>
        exists (rag_prompt s a b)
    end;
    unfold generate_rag_response, try_except, bind, call;
    destruct (generate_content w _) as [text|msg'];
    eexists; (split; [reflexivity|]); intros msg H; try discriminate H;
    split; reflexivity.
Qed.

Lemma debug_generation_always_succeeds_witness :
  exists prompt g,
    test_generation (with_model (Raises "503") world_ai) (fun _ => "Traceback")
      request_ai
    = ([CallGenerate prompt], inr (DebugSuccess g))
    /\ GenerationResult.status g = "error".
Proof.
  destruct (debug_generation_always_succeeds
              (with_model (Raises "503") world_ai) (fun _ => "Traceback")
              request_ai) as (prompt & g & E & H).
  exists prompt, g. split; [exact E|].
  apply (H "503"). reflexivity.
Defined.

Lemma context_part_length (chunk : DocumentChunk.t) :
  (String.length
     ("Source: " ++ DocumentChunk.document_id chunk ++ " | Content: "
      ++ PyStr.take 500 (DocumentChunk.content chunk) ++ "...")
   <= String.length (DocumentChunk.document_id chunk) + 523)%nat.
Proof.
  rewrite !str_length_app, take_length.
  change (String.length "Source: ") with 8%nat.
  change (String.length " | Content: ") with 12%nat.
  change (String.length "...") with 3%nat. lia.
Qed.

Lemma join_length (sep : string) (parts : list string) :
  (String.length (PyStr.join sep parts)
   <= list_sum (map (fun p => String.length p + String.length sep) parts))%nat.
Proof.
  induction parts as [|p l IH]; [simpl; lia|].
  destruct l as [|p' l'].
  - simpl. lia.
  - change (PyStr.join sep (p :: p' :: l'))
      with (p ++ sep ++ PyStr.join sep (p' :: l')).
    rewrite !str_length_app.
    set (f := fun p0 : string => (String.length p0 + String.length sep)%nat) in *.
    change (list_sum (map f (p :: p' :: l')))
      with (f p + list_sum (map f (p' :: l')))%nat.
    unfold f at 1. lia.
Qed.

(** X23: the context sent to the model quotes at most 500 characters of
    each chunk: its length is at most the sum, over the chunks, of the
    length of the document id plus 525. *)
Theorem context_budget (chunks : list DocumentChunk.t) :
  (String.length (_build_context chunks)
   <= list_sum (map (fun c => String.length (DocumentChunk.document_id c) + 525)
                    chunks))%nat.
Proof.
  unfold _build_context.
  eapply Nat.le_trans; [apply join_length|].
  rewrite map_map. unfold list_sum.
  induction chunks as [|c l IH]; [simpl; lia|].
  cbn [map fold_right]. pose proof (context_part_length c) as H.
  change (String.length (nl ++ nl)) with 2%nat in *. lia.
Qed.

(** ** Ingestion: chunks of a document *)

Section ChunkDocument.

Variable content : string.
Variable size : nat.
Hypothesis size_pos : (0 < size)%nat.

Lemma concat_cons (x : string) (l : list string) :
  String.concat EmptyString (x :: l) = x ++ String.concat EmptyString l.
Proof. destruct l; simpl; [now rewrite str_app_empty_r | reflexivity]. Qed.

Lemma range_pieces (fuel i : nat) :
  (String.length content - i <= fuel)%nat ->
  String.concat EmptyString
    (map (fun j => PyStr.take size (PyText.drop j content))
         (range_from fuel i (String.length content) size))
  = PyText.drop i content.
Proof.
  revert i. induction fuel as [|fuel IH]; intros i H.
  - simpl. symmetry. apply drop_all. lia.
  - cbn [range_from]. destruct (i <? String.length content)%nat eqn:E.
    + cbn [map]. rewrite concat_cons, IH by lia.
      rewrite <- (drop_drop size i content). apply take_drop.
    + apply Nat.ltb_ge in E. simpl. symmetry. now apply drop_all.
Qed.

Lemma range_indices (fuel k : nat) :
  map (fun i => (i / size)%nat)
      (range_from fuel (k * size) (String.length content) size)
  = seq k (List.length (range_from fuel (k * size) (String.length content) size)).
Proof.
  revert k. induction fuel as [|fuel IH]; intros k; [reflexivity|].
  cbn [range_from]. destruct (_ <? _)%nat; [|reflexivity].
  cbn [map List.length seq]. rewrite Nat.div_mul by lia.
  replace (k * size + size)%nat with (S k * size)%nat by lia.
  now rewrite IH.
Qed.

Lemma range_below (fuel i j : nat) :
  In j (range_from fuel i (String.length content) size) ->
  (j < String.length content)%nat.
Proof.
  revert i. induction fuel as [|fuel IH]; intros i; [intros []|].
  cbn [range_from]. destruct (i <? String.length content)%nat eqn:E;
    [|intros []].
  intros [<-|H]; [now apply Nat.ltb_lt | eauto].
Qed.

End ChunkDocument.

(** X24: with a positive chunk size [chunk_document] cuts the content into
    consecutive pieces: their concatenation is the content, every piece is
    non-empty and at most [chunk_size] long, every chunk carries the
    document's id, and the chunk indices count from 0. *)
Theorem chunk_document_partitions (document : Document.t) (chunk_size : Z) :
  (0 < chunk_size)%Z ->
  exists chunks,
    chunk_document document chunk_size = inr chunks
    /\ String.concat EmptyString (map DocumentChunk.content chunks)
       = Document.content document
    /\ Forall (fun c =>
                 (0 < String.length (DocumentChunk.content c)
                  <= Z.to_nat chunk_size)%nat
                 /\ DocumentChunk.document_id c = Document.id document)
              chunks
    /\ map DocumentChunk.chunk_index chunks
       = map Z.of_nat (seq 0 (List.length chunks)).
Proof.
  intros Hpos. unfold chunk_document.
  destruct (chunk_size =? 0)%Z eqn:E0; [apply Z.eqb_eq in E0; lia|].
  destruct (chunk_size <? 0)%Z eqn:E1; [apply Z.ltb_lt in E1; lia|].
  set (size := Z.to_nat chunk_size).
  assert (Hs : (0 < size)%nat) by (unfold size; lia).
  eexists. split; [reflexivity|]. repeat split.
  - rewrite map_map. cbn [DocumentChunk.content].
    rewrite (range_pieces _ size) by lia. reflexivity.
  - apply Forall_forall. intros c Hin.
    apply in_map_iff in Hin as (j & <- & Hj).
    apply range_below in Hj. cbn [DocumentChunk.content DocumentChunk.document_id].
    rewrite take_length, drop_length. split; [lia | reflexivity].
  - rewrite map_map. cbn [DocumentChunk.chunk_index].
    rewrite length_map, <- (map_map (fun i => (i / size)%nat) Z.of_nat).
    f_equal. exact (range_indices _ size Hs _ 0).
Qed.

Lemma chunk_document_partitions_witness :
  exists chunks,
    chunk_document
      (Document.mk "9f86d081884c7d65" "intro" "Robots walk." "ch1" "intro.md"
         "docs/ch1/intro.md" EmptyString) 5
    = inr chunks
    /\ map DocumentChunk.content chunks = ["Robot"; "s wal"; "k."].
Proof.
  destruct (chunk_document_partitions
              (Document.mk "9f86d081884c7d65" "intro" "Robots walk." "ch1"
                 "intro.md" "docs/ch1/intro.md" EmptyString) 5 eq_refl)
    as (chunks & E & _).
  exists chunks. split; [exact E|].
  injection E as <-. reflexivity.
Defined.

(** ** Overlapping chunks of a text *)

Section ChunkText.

Variable text : string.
Variables chunk_size overlap : Z.

Lemma chunk_loop_enough (n : nat) (start : Z) :
  (overlap < chunk_size)%Z ->
  (Z.of_nat (String.length text) - start <= Z.of_nat n)%Z ->
  exists chunks, forall fuel,
      (n < fuel)%nat ->
      chunk_text_loop fuel text chunk_size overlap start = Some chunks.
Proof.
  intros Hd. revert start. induction n as [|n IH]; intros start H.
  - exists []. intros [|fuel] Hf; [lia|]. cbn [chunk_text_loop].
    destruct (start <? Z.of_nat (String.length text))%Z eqn:E; [apply Z.ltb_lt in E; lia | reflexivity].
  - destruct (start <? Z.of_nat (String.length text))%Z eqn:E.
    + destruct (Z.of_nat (String.length text) <=? start + chunk_size - overlap)%Z eqn:E'.
      * eexists. intros [|fuel] Hf; [lia|]. cbn [chunk_text_loop].
        rewrite E, E'. reflexivity.
      * destruct (IH (start + chunk_size - overlap)%Z) as (cs & Hcs); [lia|].
        eexists. intros [|fuel] Hf; [lia|]. cbn [chunk_text_loop].
        rewrite E, E', (Hcs fuel) by lia. reflexivity.
    + exists []. intros [|fuel] Hf; [lia|]. cbn [chunk_text_loop].
      now rewrite E.
Qed.

Lemma chunk_loop_stuck (fuel : nat) (start : Z) :
  (chunk_size <= overlap)%Z -> (start < Z.of_nat (String.length text))%Z ->
  chunk_text_loop fuel text chunk_size overlap start = None.
Proof.
  intros Hd. revert start. induction fuel as [|fuel IH]; intros start H;
    [reflexivity|].
  cbn [chunk_text_loop].
  destruct (start <? Z.of_nat (String.length text))%Z eqn:E; [|apply Z.ltb_ge in E; lia].
  destruct (Z.of_nat (String.length text) <=? start + chunk_size - overlap)%Z eqn:E';
    [apply Z.leb_le in E'; lia|].
  rewrite IH by lia. reflexivity.
Qed.

(** X25: when the overlap is smaller than the chunk size, [chunk_text]
    terminates: one more iteration than the text has characters is enough,
    and more iterations give the same chunks. *)
Theorem chunk_text_terminates :
  (overlap < chunk_size)%Z ->
  exists chunks, forall fuel,
      (String.length text < fuel)%nat ->
      chunk_text fuel text chunk_size overlap = Some chunks.
Proof.
  intros Hd. unfold chunk_text.
  destruct (Z.of_nat (String.length text) <=? chunk_size)%Z; [eauto|].
  apply chunk_loop_enough; [exact Hd | lia].
Qed.

(** X26: when the overlap is not smaller than the chunk size and the text
    is longer than one chunk, the loop of [chunk_text] never ends: the
    start position does not advance, so no number of iterations produces a
    result. *)
Theorem chunk_text_diverges (fuel : nat) :
  (chunk_size <= overlap)%Z -> (chunk_size < Z.of_nat (String.length text))%Z ->
  text <> EmptyString ->
  chunk_text fuel text chunk_size overlap = None.
Proof.
  intros Hd Hl Hne. unfold chunk_text.
  destruct (Z.of_nat (String.length text) <=? chunk_size)%Z eqn:E; [apply Z.leb_le in E; lia|].
  apply chunk_loop_stuck; [exact Hd|].
  destruct text; [congruence | simpl; lia].
Qed.

End ChunkText.

Lemma chunk_text_terminates_witness :
  exists chunks, forall fuel,
      (String.length "Robots walk." < fuel)%nat ->
      chunk_text fuel "Robots walk." 5 2 = Some chunks.
Proof.
  apply (chunk_text_terminates "Robots walk." 5 2). reflexivity.
Defined.

Lemma chunk_text_diverges_witness :
  chunk_text 1000 "Robots walk." 5 5 = None.
Proof.
  apply (chunk_text_diverges "Robots walk." 5 5 1000);
    [discriminate | reflexivity | discriminate].
Defined.

Lemma drop_take (n m : nat) (s : string) :
  PyText.drop n (PyStr.take m s) = PyStr.take (m - n) (PyText.drop n s).
Proof.
  revert m s. induction n as [|n IH]; intros m s.
  - now rewrite Nat.sub_0_r.
  - destruct m as [|m], s as [|c s]; simpl; try reflexivity.
    + now destruct (m - n)%nat.
    + apply IH.
Qed.

Lemma slice_chunk (text : string) (a : nat) (size : Z) :
  (a < String.length text)%nat -> (0 < size)%Z ->
  PyText.slice text (Z.of_nat a) (Z.of_nat a + size)
  = PyStr.take (Z.to_nat size) (PyText.drop a text).
Proof.
  intros Ha Hs. unfold PyText.slice, PyText.clamp.
  destruct (Z.of_nat a <? 0)%Z eqn:E1; [apply Z.ltb_lt in E1; lia|].
  destruct (Z.of_nat a + size <? 0)%Z eqn:E2; [apply Z.ltb_lt in E2; lia|].
  rewrite (Z.min_l (Z.of_nat a)) by lia.
  destruct (Z.of_nat a <? Z.min (Z.of_nat a + size) (Z.of_nat (String.length text)))%Z
    eqn:E3; [|apply Z.ltb_ge in E3; lia].
  rewrite Nat2Z.id.
  destruct (Z.le_gt_cases (Z.of_nat a + size) (Z.of_nat (String.length text)))
    as [H|H].
  - rewrite Z.min_l by lia. f_equal. lia.
  - rewrite Z.min_r by lia.
    rewrite !take_all; [reflexivity | |]; rewrite drop_length; lia.
Qed.

Section ChunkTextRebuild.

Variable text : string.
Variables size ov : nat.
Hypothesis overlap_small : (ov < size)%nat.

Lemma chunk_loop_rebuild (fuel a : nat) (chunks : list string) :
  (a < String.length text)%nat ->
  chunk_text_loop fuel text (Z.of_nat size) (Z.of_nat ov) (Z.of_nat a)
  = Some chunks ->
  exists rest,
    chunks = PyStr.take size (PyText.drop a text) :: rest
    /\ String.concat EmptyString (map (PyText.drop ov) rest)
       = PyText.drop (a + size) text
    /\ Forall (fun c => (String.length c <= size)%nat) chunks.
Proof.
  revert a chunks. induction fuel as [|fuel IH]; intros a chunks Ha;
    [discriminate|].
  cbn [chunk_text_loop].
  destruct (Z.of_nat a <? Z.of_nat (String.length text))%Z eqn:E;
    [|apply Z.ltb_ge in E; lia].
  rewrite (slice_chunk text a (Z.of_nat size)) by lia. rewrite Nat2Z.id.
  assert (Hc : (String.length (PyStr.take size (PyText.drop a text)) <= size)%nat)
    by (rewrite take_length; lia).
  replace (Z.of_nat a + Z.of_nat size - Z.of_nat ov)%Z
    with (Z.of_nat (a + size - ov)) by lia.
  destruct (Z.of_nat (String.length text) <=? Z.of_nat (a + size - ov))%Z eqn:E'.
  - intros [= <-]. exists []. repeat split; [|auto].
    simpl. symmetry. apply drop_all. apply Z.leb_le in E'. lia.
  - apply Z.leb_gt in E'.
    destruct (chunk_text_loop fuel text (Z.of_nat size) (Z.of_nat ov)
                (Z.of_nat (a + size - ov))) as [cs|] eqn:Ecs; [|discriminate].
    intros [= <-].
    destruct (IH (a + size - ov)%nat cs ltac:(lia) Ecs) as (rest & -> & Hr & Hf).
    eexists. split; [reflexivity|]. split; [|auto].
    cbn [map]. rewrite concat_cons, Hr, drop_take.
    rewrite (drop_drop ov (a + size - ov) text).
    replace (a + size - ov + ov)%nat with (a + size)%nat by lia.
    replace (a + size - ov + size)%nat with ((a + size) + (size - ov))%nat by lia.
    rewrite <- (drop_drop (size - ov) (a + size) text).
    apply take_drop.
Qed.

End ChunkTextRebuild.

(** X27: with [0 <= overlap < chunk_size] the chunks of [chunk_text] cover
    the text: every chunk is at most [chunk_size] long, and the first chunk
    followed by every later chunk without its first [overlap] characters
    is the text again. *)
Theorem chunk_text_rebuilds (fuel : nat) (text : string)
  (chunk_size overlap : Z) (chunks : list string) :
  (0 <= overlap < chunk_size)%Z ->
  chunk_text fuel text chunk_size overlap = Some chunks ->
  rebuild (Z.to_nat overlap) chunks = text
  /\ Forall (fun c => (String.length c <= Z.to_nat chunk_size)%nat) chunks
  /\ chunks <> [].
Proof.
  intros Hd. unfold chunk_text.
  destruct (Z.of_nat (String.length text) <=? chunk_size)%Z eqn:E.
  - intros [= <-]. apply Z.leb_le in E. repeat split.
    + simpl. apply str_app_empty_r.
    + constructor; [lia | constructor].
    + discriminate.
  - apply Z.leb_gt in E. intros H.
    rewrite <- (Z2Nat.id chunk_size), <- (Z2Nat.id overlap) in H by lia.
    destruct (chunk_loop_rebuild text (Z.to_nat chunk_size) (Z.to_nat overlap)
                ltac:(lia) fuel 0 chunks ltac:(lia) H) as (rest & -> & Hr & Hf).
    repeat split; [|exact Hf|discriminate].
    unfold rebuild. rewrite Hr. simpl PyText.drop at 1. apply take_drop.
Qed.

Lemma chunk_text_rebuilds_witness :
  rebuild 2 ["Robot"; "ots w"; " walk"; "lk."] = "Robots walk.".
Proof.
  apply (chunk_text_rebuilds 20 "Robots walk." 5 2
           ["Robot"; "ots w"; " walk"; "lk."]);
    [split; [discriminate | reflexivity] | reflexivity].
Defined.

(** ** Whitespace normalisation *)

Section Normalisation.

Import PyStr PyText.

Lemma words_head_nonspace (c : ascii) (s : string) :
  is_space c = false -> words (String c s) <> [].
Proof.
  intros Hc. simpl. rewrite Hc.
  destruct s as [|c' s']; [discriminate|].
  destruct (is_space c'); [discriminate|].
  destruct (words (String c' s')); discriminate.
Qed.

Lemma words_nonempty (s : string) :
  Forall (fun w => w <> EmptyString) (words s).
Proof.
  induction s as [|c s IH]; [constructor|].
  cbn [words]. destruct (is_space c); [exact IH|].
  destruct s as [|c' s']; [repeat constructor; discriminate|].
  destruct (is_space c'); [constructor; [discriminate | exact IH]|].
  destruct (words (String c' s')) as [|w ws]; [repeat constructor; discriminate|].
  inversion IH; subst. constructor; [discriminate | assumption].
Qed.

Lemma join_empty (ws : list string) :
  Forall (fun w => w <> EmptyString) ws ->
  join " " ws = EmptyString -> ws = [].
Proof.
  destruct ws as [|w ws]; [reflexivity|].
  intros H. inversion H as [|? ? Hw _]; subst.
  destruct w; [congruence|]. destruct ws; discriminate.
Qed.

Lemma join_cons_char (c : ascii) (w : string) (ws : list string) :
  join " " (String c w :: ws) = String c (join " " (w :: ws)).
Proof. destruct ws; reflexivity. Qed.

(** what [rstrip] leaves of a collapsed text: the words joined by blanks,
    after one blank when the text starts with whitespace that the
    collapsing did not skip *)
Lemma rstrip_collapse (s : string) (in_run : bool) :
  rstrip (collapse_from in_run s)
  = (if negb in_run
        && match s with String c _ => is_space c | EmptyString => false end
        && negb (match words s with [] => true | _ => false end)
     then " " else EmptyString)
    ++ join " " (words s).
Proof.
  revert in_run. induction s as [|c s IH]; intros in_run.
  - destruct in_run; reflexivity.
  - cbn [collapse_from words]. destruct (is_space c) eqn:Hc.
    + destruct in_run.
      * rewrite IH. reflexivity.
      * cbn [rstrip]. rewrite IH. cbn [negb andb append].
        pose proof (words_nonempty s) as Hw.
        destruct (words s) as [|w ws] eqn:Ew; [reflexivity|].
        destruct (join " " (w :: ws)) eqn:Ej; [|reflexivity].
        apply join_empty in Ej; [discriminate | exact Hw].
    + rewrite andb_false_r. cbn [append rstrip]. rewrite IH. cbn [negb andb].
      destruct s as [|c' s']; [now rewrite Hc|].
      destruct (is_space c') eqn:Hc'.
      * pose proof (words_nonempty (String c' s')) as Hw.
        destruct (words (String c' s')) as [|w ws] eqn:Ew.
        -- simpl. now rewrite Hc.
        -- reflexivity.
      * pose proof (words_head_nonspace c' s' Hc') as Hn.
        pose proof (words_nonempty (String c' s')) as Hw.
        destruct (words (String c' s')) as [|w ws] eqn:Ew; [contradiction|].
        cbn [append]. rewrite join_cons_char.
        destruct (join " " (w :: ws)) eqn:Ej; [|reflexivity].
        apply join_empty in Ej; [discriminate | exact Hw].
Qed.

Lemma lstrip_collapse (s : string) (in_run : bool) :
  lstrip (collapse_from in_run s) = collapse_from true (lstrip s).
Proof.
  revert in_run. induction s as [|c s IH]; intros in_run; [reflexivity|].
  cbn [collapse_from lstrip]. destruct (is_space c) eqn:Hc.
  - destruct in_run; [apply IH|]. cbn [lstrip].
    change (is_space " ") with true. cbv iota. apply IH.
  - cbn [lstrip collapse_from]. now rewrite Hc.
Qed.

Lemma words_lstrip (s : string) : words (lstrip s) = words s.
Proof.
  induction s as [|c s IH]; [reflexivity|].
  cbn [lstrip]. destruct (is_space c) eqn:Hc; [|reflexivity].
  rewrite IH. cbn [words]. now rewrite Hc.
Qed.

End Normalisation.

(** X28: the two whitespace normalisers of the text utilities are the same
    function: collapsing every whitespace run to one blank and stripping
    ([clean_text]) gives the words of the text joined by single blanks
    ([normalize_whitespace]). *)
Theorem clean_text_is_normalize_whitespace (text : string) :
  clean_text text = normalize_whitespace text.
Proof.
  unfold clean_text, normalize_whitespace, PyStr.strip, PyText.collapse.
  rewrite lstrip_collapse, rstrip_collapse, words_lstrip. reflexivity.
Qed.

(** ** Health check *)

Lemma probe_ok (probe : Outcome unit) :
  PyStr.startswith "connected" (probe_status probe)
  || PyStr.startswith "warning" (probe_status probe)
  = match probe with Returns _ => true | Raises _ => false end.
Proof. destruct probe; reflexivity. Qed.

(** X29: the health check reports [healthy] only when both probes succeed
    and no API key at all is configured: the status texts
    [gemini connected], [openai connected], [cohere connected] and
    [openai embedding connected] start neither with [connected] nor with
    [warning], so any configured key makes the service [unhealthy]. *)
Theorem healthy_only_without_keys (qdrant_probe postgres_probe : Outcome unit)
  (settings : Settings.t) :
  Health.status (health_check qdrant_probe postgres_probe settings) = "healthy"
  <-> (exists u, qdrant_probe = Returns u)
      /\ (exists u, postgres_probe = Returns u)
      /\ PyStr.falsy (Settings.gemini_api_key settings) = true
      /\ PyStr.falsy (Settings.openai_api_key settings) = true
      /\ PyStr.falsy (Settings.cohere_api_key settings) = true
      /\ PyStr.falsy (Settings.openai_embedding_api_key settings) = true.
Proof.
  unfold health_check, PyStr.truthy. cbn [Health.status forallb].
  rewrite !probe_ok.
  destruct qdrant_probe as [u1|m1], postgres_probe as [u2|m2],
    (PyStr.falsy (Settings.gemini_api_key settings)),
    (PyStr.falsy (Settings.openai_api_key settings)),
    (PyStr.falsy (Settings.cohere_api_key settings)),
    (PyStr.falsy (Settings.openai_embedding_api_key settings));
    cbn; split; intros H; try discriminate H;
    try (destruct H as ((? & ?) & (? & ?) & ? & ? & ? & ?); discriminate);
    repeat split; eauto.
Qed.

Example configured_service_is_unhealthy :
  Health.status
    (health_check (Returns tt) (Returns tt)
       (Settings.mk (Some "gemini-key") None (Some "cohere-key") None))
  = "unhealthy".
Proof. reflexivity. Qed.

Lemma gate_decision_witness :
  check_refusal_conditions request_ai
    [DocumentChunk.mk "17" "doc_ai_1" "Artificial intelligence" 0%Z]
    (Some "Bananas are yellow.") = None.
Proof.
  apply (gate_decision request_ai
           [DocumentChunk.mk "17" "doc_ai_1" "Artificial intelligence" 0%Z]
           (Some "Bananas are yellow.")).
  split; [discriminate|]. repeat constructor. discriminate.
Defined.
